(** * DeciderCreep: the creep decider of the planning module

    A shallow embedding of [modules/planning/tasks/deciders/decider_creep.cc]
    and the properties of its three member functions [Process],
    [BuildStopDecision] and [CheckCreepDone].

    Conventions of the embedding.
    - A C++ [double] is a binary64 primitive float; [a < b] is [a <? b],
      [a >= b] is [b <=? a] and [a > b] is [b <? a], so comparisons with a
      NaN are false as in C++.
    - [uint32_t] is a [Z] in [0, 2^32) with the wrap-around written out.
    - [std::string] is [string]; a container that is iterated is a [list].
    - [Frame*] and [ReferenceLineInfo*] arguments are the objects they point
      to: [CHECK_NOTNULL] aborts the process on a null pointer, and the
      embedding starts after those checks.
    - [Frame] and [ReferenceLineInfo] are classes of the planning module that
      this file uses through their member functions only; they are the
      interface [Collaborators].
    - The objects a member function mutates through its pointer arguments
      form a [World] that is threaded through a state monad, together with
      the sequence of mutating calls and error logs made so far; the static
      member [creep_clear_counter_] is passed in and returned explicitly. *)

From Stdlib Require Import ZArith List String Bool Floats Lia Permutation.
Import ListNotations.

Set Warnings "-inexact-float".

Local Open Scope string_scope.
Local Open Scope float_scope.

(** ** Data model *)

(** [STPoint]: a point of an ST graph. *)
Module STPoint.
Record t := mk { s : float; t_ : float }.
End STPoint.

(** [STBoundary]: the accessors of an obstacle's ST boundary that the decider
    reads. *)
Module STBoundary.
Record t := mk {
  min_t : float;
  min_s : float;
  bottom_left_point : STPoint.t;
  bottom_right_point : STPoint.t
}.
End STBoundary.

(** [Obstacle]: identity, the two flags and the ST boundary on the reference
    line. *)
Record Obstacle := mkObstacle {
  Id : string;
  IsVirtual : bool;
  IsStatic : bool;
  reference_line_st_boundary : STBoundary.t
}.

(** [hdmap::PathOverlap]. *)
Module PathOverlap.
Record t := mk { object_id : string; start_s : float; end_s : float }.
End PathOverlap.

(** [SLBoundary], of which only [end_s] is read. *)
Module SLBoundary.
Record t := mk { end_s : float }.
End SLBoundary.

(** [ReferencePoint]: a point of the reference line with its heading. *)
Module ReferencePoint.
Record t := mk { x : float; y : float; heading : float }.
End ReferencePoint.

(** [ReferenceLine], seen through [GetReferencePoint]. *)
Record ReferenceLine := mkReferenceLine {
  GetReferencePoint : float -> ReferencePoint.t
}.

Module PointENU.
Record t := mk { x : float; y : float; z : float }.
End PointENU.

(** [StopReasonCode]: the enumerator this file sets, and the others by their
    number. *)
Inductive StopReasonCode :=
| STOP_REASON_CREEPER
| STOP_REASON_other (code : Z).

(** [ObjectStop], the payload of a stop decision. *)
Record ObjectStop := mkObjectStop {
  reason_code : StopReasonCode;
  distance_s : float;
  stop_heading : float;
  stop_point : PointENU.t
}.

(** [ObjectDecisionType]: a oneof; [mutable_stop()] selects [stop]. *)
Inductive ObjectDecisionType :=
| object_tag_not_set
| stop (d : ObjectStop).

(** [ReferenceLineInfo::OverlapType], as far as it is named here. *)
Inductive OverlapType :=
| STOP_SIGN
| OverlapType_other (code : Z).

(** [DeciderCreepConfig]: the fields of the configuration block. *)
Record DeciderCreepConfig := mkDeciderCreepConfig {
  stop_distance : float;
  max_valid_stop_distance : float;
  min_boundary_t : float;
  ignore_max_st_min_t : float;
  ignore_min_st_min_s : float
}.

(** [PlanningContext]: the two fields of the process-wide planning status and
    scenario info that [Process] reads. *)
Record PlanningContext := mkPlanningContext {
  current_stop_sign_overlap_id : string;
  current_traffic_light_overlaps : list PathOverlap.t
}.

(** [common::Status]. *)
Inductive Status :=
| Status_OK
| Status_Error (code : Z) (msg : string).

(** [std::string::empty]. *)
Definition empty (s : string) : bool :=
  match s with
  | EmptyString => true
  | String _ _ => false
  end.

(** ** The debounce counter *)

Definition UINT32_MODULUS : Z := 2 ^ 32.

(** [c + 1] on [uint32_t]. *)
Definition uint32_succ (c : Z) : Z := ((c + 1) mod UINT32_MODULUS)%Z.

(** ** The classes the decider works on *)

(** The member functions of [Frame], [ReferenceLineInfo], [PathDecision] and
    [scenario::util] that the decider calls.  A member function that mutates
    its object returns the object's new state; a returned pointer that may be
    null is an [option]. *)
Class Collaborators := {
  Frame : Type;
  ReferenceLineInfo : Type;
  (** [frame->CreateStopObstacle(reference_line_info, id, s)] *)
  CreateStopObstacle :
    Frame -> ReferenceLineInfo -> string -> float ->
    Frame * ReferenceLineInfo * option Obstacle;
  (** [reference_line_info->AddObstacle(obstacle)] *)
  AddObstacle :
    ReferenceLineInfo -> Obstacle -> ReferenceLineInfo * option Obstacle;
  (** [reference_line_info->reference_line()] *)
  reference_line : ReferenceLineInfo -> ReferenceLine;
  (** [reference_line_info.AdcSlBoundary()] *)
  AdcSlBoundary : ReferenceLineInfo -> SLBoundary.t;
  (** [reference_line_info.path_decision().obstacles().Items()] *)
  path_decision_obstacles_Items : ReferenceLineInfo -> list Obstacle;
  (** [reference_line_info->path_decision()]
      [->AddLongitudinalDecision(tag, id, decision)] *)
  path_decision_AddLongitudinalDecision :
    ReferenceLineInfo -> string -> string -> ObjectDecisionType ->
    ReferenceLineInfo;
  (** [scenario::util::RefreshOverlapOnReferenceLine] *)
  RefreshOverlapOnReferenceLine :
    ReferenceLineInfo -> string -> OverlapType -> option PathOverlap.t;
  (** the constant [CREEP_VO_ID_PREFIX] of the header *)
  CREEP_VO_ID_PREFIX : string
}.

(** The mutating calls and error logs a member function makes, in order. *)
Inductive Call :=
| Call_CreateStopObstacle (obstacle_id : string) (obstacle_s : float)
| Call_AddObstacle (obstacle : Obstacle)
| Call_AddLongitudinalDecision (tag object_id : string)
    (decision : ObjectDecisionType)
| Call_AERROR (message : string).

(** The longitudinal decisions attached by a sequence of calls. *)
Fixpoint decisions_attached (calls : list Call)
    : list (string * string * ObjectDecisionType) :=
  match calls with
  | [] => []
  | Call_AddLongitudinalDecision tag object_id decision :: rest =>
      (tag, object_id, decision) :: decisions_attached rest
  | _ :: rest => decisions_attached rest
  end.

(** ** The decider *)

Section DeciderCreep.

Context {collaborators : Collaborators}.

(** [config_.decider_creep_config()]. *)
Variable config_ : DeciderCreepConfig.

(** *** State *)

Record World := mkWorld {
  frame : Frame;
  reference_line_info : ReferenceLineInfo;
  calls : list Call
}.

Definition M (A : Type) : Type := World -> A * World.

Definition ret {A : Type} (a : A) : M A := fun w => (a, w).

Definition bind {A B : Type} (m : M A) (k : A -> M B) : M B :=
  fun w => let (a, w') := m w in k a w'.

Notation "x <- m ;; k" := (bind m (fun x => k))
  (at level 61, m at next level, right associativity).
Notation "m ;;; k" := (bind m (fun _ => k))
  (at level 61, right associativity).

Definition record (c : Call) (w : World) : World :=
  mkWorld (frame w) (reference_line_info w) (calls w ++ [c]).

Definition get_frame : M Frame := fun w => (frame w, w).

Definition get_reference_line_info : M ReferenceLineInfo :=
  fun w => (reference_line_info w, w).

Definition do_CreateStopObstacle (id : string) (s : float)
    : M (option Obstacle) :=
  fun w =>
    let '(frame', reference_line_info', obstacle) :=
      CreateStopObstacle (frame w) (reference_line_info w) id s in
    (obstacle,
     mkWorld frame' reference_line_info'
       (calls w ++ [Call_CreateStopObstacle id s])).

Definition do_AddObstacle (obstacle : Obstacle) : M (option Obstacle) :=
  fun w =>
    let '(reference_line_info', stop_wall) :=
      AddObstacle (reference_line_info w) obstacle in
    (stop_wall,
     mkWorld (frame w) reference_line_info'
       (calls w ++ [Call_AddObstacle obstacle])).

Definition do_AddLongitudinalDecision (tag id : string)
    (decision : ObjectDecisionType) : M unit :=
  fun w =>
    (tt,
     mkWorld (frame w)
       (path_decision_AddLongitudinalDecision
          (reference_line_info w) tag id decision)
       (calls w ++ [Call_AddLongitudinalDecision tag id decision])).

Definition AERROR (message : string) : M unit :=
  fun w => (tt, record (Call_AERROR message) w).

(** *** Member functions *)

(** [DeciderCreep::FindCreepDistance]. *)
Definition FindCreepDistance (frame : Frame)
    (reference_line_info : ReferenceLineInfo) : float :=
  0.5.

(** [DeciderCreep::BuildStopDecision]. *)
Definition BuildStopDecision (stop_line_s : float) : M bool :=
  frame <- get_frame ;;
  reference_line_info <- get_reference_line_info ;;
  let creep_stop_s :=
    stop_line_s + FindCreepDistance frame reference_line_info in
  let virtual_obstacle_id := (CREEP_VO_ID_PREFIX ++ "SS")%string in
  obstacle <- do_CreateStopObstacle virtual_obstacle_id creep_stop_s ;;
  match obstacle with
  | None =>
      AERROR ("Failed to create obstacle [" ++ virtual_obstacle_id ++ "]")
      ;;; ret false
  | Some obstacle =>
      stop_wall <- do_AddObstacle obstacle ;;
      match stop_wall with
      | None =>
          AERROR ("Failed to create obstacle for: " ++ virtual_obstacle_id)
          ;;; ret false
      | Some stop_wall =>
          let stop_distance := stop_distance config_ in
          let stop_s := creep_stop_s - stop_distance in
          reference_line_info <- get_reference_line_info ;;
          let reference_line := reference_line reference_line_info in
          let stop_point := GetReferencePoint reference_line stop_s in
          let stop_heading :=
            ReferencePoint.heading
              (GetReferencePoint reference_line stop_s) in
          let stop_decision :=
            mkObjectStop STOP_REASON_CREEPER (- stop_distance) stop_heading
              (PointENU.mk (ReferencePoint.x stop_point)
                 (ReferencePoint.y stop_point) 0.0) in
          do_AddLongitudinalDecision "Creeper" (Id stop_wall)
            (stop stop_decision)
          ;;; ret true
      end
  end.

(** Lines 48 to 67 of [DeciderCreep::Process]: the value of the local
    [stop_line_s] when the stop decision is about to be built. *)
Definition Process_stop_line_s (context : PlanningContext)
    (reference_line_info : ReferenceLineInfo) : float :=
  let stop_line_s := 0.0 in
  let stop_sign_overlap_id := current_stop_sign_overlap_id context in
  if negb (empty stop_sign_overlap_id) then
    let current_stop_sign_overlap :=
      RefreshOverlapOnReferenceLine reference_line_info
        stop_sign_overlap_id STOP_SIGN in
    match current_stop_sign_overlap with
    | Some overlap => PathOverlap.end_s overlap
    | None => stop_line_s
    end
  else if (0 <? List.length (current_traffic_light_overlaps context))%nat then
    match current_traffic_light_overlaps context with
    | overlap :: _ => PathOverlap.end_s overlap
    | [] => stop_line_s
    end
  else stop_line_s.

(** [DeciderCreep::Process]; [context] is the [PlanningContext] singleton. *)
Definition Process (context : PlanningContext) : M Status :=
  reference_line_info <- get_reference_line_info ;;
  let stop_line_s := Process_stop_line_s context reference_line_info in
  (if 0.0 <? stop_line_s
   then BuildStopDecision stop_line_s ;;; ret tt
   else ret tt) ;;;
  ret Status_OK.

(** The obstacle loop of [CheckCreepDone].  [all_far_away] is the
    loop-carried flag; [continue] goes on with the remaining items and
    [break] leaves with the flag set to false.  The [ADEBUG] line writes to
    the debug log only and is left out. *)
Fixpoint CheckCreepDone_loop (items : list Obstacle) (all_far_away : bool)
    : bool :=
  match items with
  | [] => all_far_away
  | obstacle :: rest =>
      if IsVirtual obstacle || IsStatic obstacle then
        CheckCreepDone_loop rest all_far_away
      else if STBoundary.min_t (reference_line_st_boundary obstacle)
              <? min_boundary_t config_ then
        let kepsilon := 1e-6 in
        let obstacle_traveled_s :=
          STPoint.s (STBoundary.bottom_left_point
                       (reference_line_st_boundary obstacle))
          - STPoint.s (STBoundary.bottom_right_point
                         (reference_line_st_boundary obstacle)) in
        if (obstacle_traveled_s <? kepsilon)
           && (STBoundary.min_t (reference_line_st_boundary obstacle)
               <? ignore_max_st_min_t config_)
           && (ignore_min_st_min_s config_
               <? STBoundary.min_s (reference_line_st_boundary obstacle))
        then CheckCreepDone_loop rest all_far_away
        else false
      else CheckCreepDone_loop rest all_far_away
  end.

(** [DeciderCreep::CheckCreepDone].  The static [creep_clear_counter_] is
    an argument and the second component of the result. *)
Definition CheckCreepDone (frame : Frame)
    (reference_line_info : ReferenceLineInfo)
    (stop_sign_overlap_end_s wait_time_sec timeout_sec : float)
    (creep_clear_counter_ : Z) : bool * Z :=
  let creep_config := config_ in
  let creep_done := false in
  let creep_stop_s :=
    stop_sign_overlap_end_s + FindCreepDistance frame reference_line_info in
  let distance :=
    creep_stop_s - SLBoundary.end_s (AdcSlBoundary reference_line_info) in
  if (distance <? max_valid_stop_distance creep_config)
     || (timeout_sec <=? wait_time_sec) then
    let all_far_away :=
      CheckCreepDone_loop
        (path_decision_obstacles_Items reference_line_info) true in
    let creep_clear_counter_ :=
      if all_far_away then uint32_succ creep_clear_counter_ else 0%Z in
    if (5 <=? creep_clear_counter_)%Z then (true, 0%Z)
    else (creep_done, creep_clear_counter_)
  else (creep_done, creep_clear_counter_).

(** *** Repeated queries *)

(** The arguments of one call of [CheckCreepDone]. *)
Record CreepQuery := mkCreepQuery {
  query_frame : Frame;
  query_reference_line_info : ReferenceLineInfo;
  query_stop_sign_overlap_end_s : float;
  query_wait_time_sec : float;
  query_timeout_sec : float
}.

Definition CheckCreepDone_query (q : CreepQuery) (counter : Z) : bool * Z :=
  CheckCreepDone (query_frame q) (query_reference_line_info q)
    (query_stop_sign_overlap_end_s q) (query_wait_time_sec q)
    (query_timeout_sec q) counter.

(** Successive calls of [CheckCreepDone]: each call starts from the counter
    the previous one left.  The result lists, call by call, the value
    returned and the counter after the call. *)
Fixpoint CheckCreepDone_run (queries : list CreepQuery) (counter : Z)
    : list (bool * Z) :=
  match queries with
  | [] => []
  | q :: rest =>
      let r := CheckCreepDone_query q counter in
      r :: CheckCreepDone_run rest (snd r)
  end.

(** *** The specification's vocabulary *)

(** The benign exception of the clearance evaluator: traveled_s < 1e-6 and
    min_t < ignore_max_st_min_t and min_s > ignore_min_st_min_s. *)
Definition benign_exception (o : Obstacle) : bool :=
  let st := reference_line_st_boundary o in
  let traveled_s :=
    STPoint.s (STBoundary.bottom_left_point st)
    - STPoint.s (STBoundary.bottom_right_point st) in
  (traveled_s <? 1e-6)
  && (STBoundary.min_t st <? ignore_max_st_min_t config_)
  && (ignore_min_st_min_s config_ <? STBoundary.min_s st).

(** An obstacle blocks: it is neither virtual nor static, its min_t is
    below min_boundary_t, and it is not a benign exception. *)
Definition blocking (o : Obstacle) : bool :=
  negb (IsVirtual o) && negb (IsStatic o)
  && (STBoundary.min_t (reference_line_st_boundary o)
      <? min_boundary_t config_)
  && negb (benign_exception o).

(** distance_to_go = creep_stop_s - ego_end_s, where creep_stop_s is
    stop_sign_overlap_end_s + creep_distance. *)
Definition distance_to_go (creep_distance : float)
    (reference_line_info : ReferenceLineInfo)
    (stop_sign_overlap_end_s : float) : float :=
  (stop_sign_overlap_end_s + creep_distance)
  - SLBoundary.end_s (AdcSlBoundary reference_line_info).

(** The gate: distance_to_go < max_valid_stop_distance or
    wait_time_sec >= timeout_sec. *)
Definition gate_satisfied (distance wait_time_sec timeout_sec : float)
    : bool :=
  (distance <? max_valid_stop_distance config_)
  || (timeout_sec <=? wait_time_sec).

(** The gate of a query. *)
Definition query_gate (q : CreepQuery) : bool :=
  gate_satisfied
    (distance_to_go 0.5 (query_reference_line_info q)
       (query_stop_sign_overlap_end_s q))
    (query_wait_time_sec q) (query_timeout_sec q).

(** No obstacle of the query's decision context blocks. *)
Definition query_clear (q : CreepQuery) : bool :=
  forallb (fun o => negb (blocking o))
    (path_decision_obstacles_Items (query_reference_line_info q)).

(** The stop decision of the stop-wall builder for a creep stop at
    [creep_stop_s] on [line]: reason CREEPER, distance_s = -stop_distance,
    heading and point of the path at creep_stop_s - stop_distance, z = 0. *)
Definition creeper_stop (line : ReferenceLine) (creep_stop_s : float)
    : ObjectDecisionType :=
  let stop_point :=
    GetReferencePoint line (creep_stop_s - stop_distance config_) in
  stop (mkObjectStop STOP_REASON_CREEPER (- stop_distance config_)
          (ReferencePoint.heading stop_point)
          (PointENU.mk (ReferencePoint.x stop_point)
             (ReferencePoint.y stop_point) 0.0)).

(** How many queries of a sequence pass the gate with no obstacle
    blocking. *)
Definition clear_samples (queries : list CreepQuery) : Z :=
  Z.of_nat
    (List.length
       (filter (fun q => query_gate q && query_clear q) queries)).

End DeciderCreep.

Arguments mkWorld {collaborators} _ _ _.
Arguments frame {collaborators} _.
Arguments reference_line_info {collaborators} _.
Arguments calls {collaborators} _.
Arguments mkCreepQuery {collaborators} _ _ _ _ _.

(** The debounce gate of the specification: a clear sample advances the
    count and fires, with a reset, when it reaches five; a blocked sample
    resets the count. *)
Definition debounce (clear : bool) (count : Z) : bool * Z :=
  let count' := if clear then uint32_succ count else 0%Z in
  if (5 <=? count')%Z then (true, 0%Z) else (false, count').

(** The counter a run of calls leaves: the one after its last call, or the
    one it started from when no call was made. *)
Definition counter_after (results : list (bool * Z)) (counter : Z) : Z :=
  fold_left (fun _ r => snd r) results counter.

(** How many calls of a run returned true. *)
Definition fired (results : list (bool * Z)) : Z :=
  Z.of_nat (List.length (filter fst results)).

(** ** A concrete planning world

    A straight reference line along the x axis, a frame that keeps the
    obstacles it created, and a reference-line info that keeps its obstacles
    by id, its decisions and its stop-sign overlaps.  The theorems below hold
    for every [Collaborators]; this one instantiates them. *)
Module Sample.

Definition straight_line : ReferenceLine :=
  mkReferenceLine (fun s => ReferencePoint.mk s 0.0 0.0).

Record Info := mkInfo {
  path_length : float;
  adc : SLBoundary.t;
  items : list Obstacle;
  decisions : list (string * string * ObjectDecisionType);
  stop_sign_overlaps : list PathOverlap.t
}.

Definition origin : STPoint.t := STPoint.mk 0.0 0.0.

Definition stop_obstacle (id : string) : Obstacle :=
  mkObstacle id true true (STBoundary.mk 0.0 0.0 origin origin).

(** Creating a stop obstacle fails outside of the path. *)
Definition create (f : list Obstacle) (r : Info) (id : string) (s : float)
    : list Obstacle * Info * option Obstacle :=
  if (0.0 <=? s) && (s <=? path_length r)
  then ((f ++ [stop_obstacle id])%list, r, Some (stop_obstacle id))
  else (f, r, None).

(** Adding an obstacle fails when its id is taken. *)
Definition add (r : Info) (o : Obstacle) : Info * option Obstacle :=
  if existsb (fun o' => String.eqb (Id o') (Id o)) (items r)
  then (r, None)
  else (mkInfo (path_length r) (adc r) (items r ++ [o])%list (decisions r)
          (stop_sign_overlaps r), Some o).

Definition decide (r : Info) (tag id : string) (d : ObjectDecisionType)
    : Info :=
  mkInfo (path_length r) (adc r) (items r)
    (decisions r ++ [(tag, id, d)])%list
    (stop_sign_overlaps r).

Definition refresh (r : Info) (id : string) (ty : OverlapType)
    : option PathOverlap.t :=
  match ty with
  | STOP_SIGN =>
      find (fun o => String.eqb (PathOverlap.object_id o) id)
        (stop_sign_overlaps r)
  | OverlapType_other _ => None
  end.

#[global] Instance world : Collaborators := {|
  Frame := list Obstacle;
  ReferenceLineInfo := Info;
  CreateStopObstacle := create;
  AddObstacle := add;
  reference_line := fun _ => straight_line;
  AdcSlBoundary := adc;
  path_decision_obstacles_Items := items;
  path_decision_AddLongitudinalDecision := decide;
  RefreshOverlapOnReferenceLine := refresh;
  CREEP_VO_ID_PREFIX := "CREEP_"
|}.

Definition config : DeciderCreepConfig :=
  mkDeciderCreepConfig 1.0 2.0 6.0 0.1 15.0.

(** A moving vehicle that reaches the path after [min_t] seconds at
    [min_s], having covered [traveled] along the path. *)
Definition vehicle (id : string) (min_t min_s traveled : float) : Obstacle :=
  mkObstacle id false false
    (STBoundary.mk min_t min_s (STPoint.mk (min_s + traveled) min_t)
       (STPoint.mk min_s (min_t + 1.0))).

Definition crossing : Obstacle := vehicle "crossing" 2.0 5.0 3.0.
Definition far : Obstacle := vehicle "far" 8.0 30.0 3.0.
Definition leading : Obstacle := vehicle "leading" 0.0 20.0 (-4.0).
Definition sign_0 : PathOverlap.t := PathOverlap.mk "sign_0" 98.0 100.0.
Definition light_0 : PathOverlap.t := PathOverlap.mk "light_0" 138.0 140.0.
Definition light_1 : PathOverlap.t := PathOverlap.mk "light_1" 238.0 240.0.

(** The ego vehicle's front at [ego_end_s] on a path of 300 m. *)
Definition info (ego_end_s : float) (obstacles : list Obstacle)
    (signs : list PathOverlap.t) : ReferenceLineInfo :=
  mkInfo 300.0 (SLBoundary.mk ego_end_s) obstacles [] signs.

(** A frame that has created no obstacle yet. *)
Definition fresh_frame : Frame := [].

Definition start (r : ReferenceLineInfo) : World :=
  mkWorld fresh_frame r [].

Definition query (r : ReferenceLineInfo)
    (stop_sign_overlap_end_s wait timeout : float) : CreepQuery :=
  mkCreepQuery fresh_frame r stop_sign_overlap_end_s wait timeout.

(** Five queries while creeping up to a stop line at 100 m; the last one
    is made from far away after the timeout of 15 s. *)
Definition approach : list CreepQuery :=
  [query (info 99.0 [far; leading] []) 100.0 1.0 15.0;
   query (info 99.4 [far] []) 100.0 2.0 15.0;
   query (info 99.8 [leading] []) 100.0 3.0 15.0;
   query (info 100.1 [] []) 100.0 4.0 15.0;
   query (info 60.0 [far; stop_obstacle "CREEP_SS"] []) 100.0 16.0 15.0].

(** The planning status at a stop sign, at a traffic light, and at
    neither. *)
Definition at_sign (id : string) : PlanningContext :=
  mkPlanningContext id [light_0; light_1].
Definition at_lights : PlanningContext :=
  mkPlanningContext "" [light_0; light_1].
Definition at_nothing : PlanningContext := mkPlanningContext "" [].

(** One query close to the stop line with nothing in the way, one with a
    crossing vehicle, and one from far away before the timeout. *)
Definition clear_query : CreepQuery :=
  query (info 99.0 [far; leading] []) 100.0 1.0 15.0.
Definition blocked_query : CreepQuery :=
  query (info 99.0 [far; crossing] []) 100.0 1.0 15.0.
Definition early_query : CreepQuery :=
  query (info 50.5 [crossing] []) 100.0 1.0 15.0.

(** A stop-sign overlap that ends behind the start of the path. *)
Definition sign_behind : PathOverlap.t := PathOverlap.mk "sign_b" (-3.0) (-1.0).

End Sample.

(** ** Comparisons of doubles *)

(** Swapping the operands of a comparison reverses its outcome; an unordered
    pair (a NaN operand) stays unordered. *)
Lemma SFcompare_swap (a b : spec_float) :
  SFcompare b a = option_map CompOpp (SFcompare a b).
Proof.
  destruct a as [sa | sa | | sa ma ea], b as [sb | sb | | sb mb eb];
    cbn [SFcompare option_map]; try reflexivity;
    try (destruct sa; reflexivity); try (destruct sb; reflexivity);
    try (destruct sa, sb; reflexivity).
  f_equal.
  rewrite (Z.compare_antisym ea eb).
  destruct sa, sb; cbn [CompOpp]; try reflexivity;
    destruct (ea ?= eb)%Z; cbn [CompOpp]; try reflexivity.
  - f_equal. symmetry. exact (Pos.compare_cont_antisym ma mb Eq).
  - symmetry. exact (Pos.compare_cont_antisym ma mb Eq).
Qed.

(** [a >= b] excludes [a < b]. *)
Lemma float_ge_not_lt (a b : float) : (b <=? a) = true -> (a <? b) = false.
Proof.
  rewrite leb_spec, ltb_spec. unfold SFleb, SFltb.
  rewrite (SFcompare_swap (Prim2SF a) (Prim2SF b)).
  destruct (SFcompare (Prim2SF a) (Prim2SF b)) as [[ | | ] | ];
    cbn [option_map CompOpp]; congruence.
Qed.

(** [a < b] excludes [a >= b]. *)
Lemma float_lt_not_ge (a b : float) : (a <? b) = true -> (b <=? a) = false.
Proof.
  intros H. destruct (b <=? a) eqn:E; [ | reflexivity].
  apply float_ge_not_lt in E. congruence.
Qed.

(** ** The clearance query *)

Section ClearanceFacts.

Context {collaborators : Collaborators}.
Variable config_ : DeciderCreepConfig.

(** The loop leaves the flag as it found it unless an item blocks. *)
Lemma CheckCreepDone_loop_forallb (items : list Obstacle) (b : bool) :
  CheckCreepDone_loop config_ items b
  = forallb (fun o => negb (blocking config_ o)) items && b.
Proof.
  induction items as [ | o rest IH]; cbn [CheckCreepDone_loop forallb].
  - reflexivity.
  - unfold blocking at 1, benign_exception. rewrite IH.
    destruct (IsVirtual o), (IsStatic o); cbn [orb negb andb];
      try reflexivity.
    destruct (STBoundary.min_t (reference_line_st_boundary o)
              <? min_boundary_t config_); cbn [andb negb]; [ | reflexivity].
    match goal with
    | |- (if ?c then _ else _) = _ => destruct c
    end; reflexivity.
Qed.

Lemma forallb_not_blocking_false (items : list Obstacle) :
  forallb (fun o => negb (blocking config_ o)) items = false
  <-> exists o, In o items /\ blocking config_ o = true.
Proof.
  induction items as [ | o rest IH]; cbn [forallb In].
  - split; [discriminate | intros [o [[] _]]].
  - rewrite andb_false_iff, IH, negb_false_iff. split.
    + intros [H | [o' [Hin Hb]]]; eauto.
    + intros [o' [[-> | Hin] Hb]]; eauto.
Qed.

(** The function in terms of the gate and of the debounce gate. *)
Lemma CheckCreepDone_unfold (frame : Frame) (rli : ReferenceLineInfo)
    (stop_sign_overlap_end_s wait_time_sec timeout_sec : float) (c : Z) :
  CheckCreepDone config_ frame rli stop_sign_overlap_end_s wait_time_sec
    timeout_sec c
  = if gate_satisfied config_
         (distance_to_go 0.5 rli stop_sign_overlap_end_s)
         wait_time_sec timeout_sec
    then debounce
           (CheckCreepDone_loop config_
              (path_decision_obstacles_Items rli) true) c
    else (false, c).
Proof. reflexivity. Qed.

(** The counter stays in [0, 4] between calls, and a call that returns true
    leaves it at 0. *)
Lemma CheckCreepDone_counter_bounded (frame : Frame) (rli : ReferenceLineInfo)
    (stop_sign_overlap_end_s wait_time_sec timeout_sec : float) (c : Z) :
  (0 <= c <= 4)%Z ->
  let r :=
    CheckCreepDone config_ frame rli stop_sign_overlap_end_s wait_time_sec
      timeout_sec c in
  (0 <= snd r <= 4)%Z /\ (fst r = true -> snd r = 0%Z).
Proof.
  intros Hc r. unfold r. rewrite CheckCreepDone_unfold.
  destruct (gate_satisfied config_ _ wait_time_sec timeout_sec);
    [ | cbn [fst snd]; split; [exact Hc | discriminate]].
  unfold debounce, uint32_succ, UINT32_MODULUS.
  destruct (CheckCreepDone_loop config_ _ true).
  - rewrite Z.mod_small by lia.
    destruct (Z.leb_spec 5 (c + 1)); cbn [fst snd]; split;
      try lia; try reflexivity; discriminate.
  - cbn [fst snd Z.leb Z.compare]. split; [lia | reflexivity].
Qed.

Lemma CheckCreepDone_query_clear (q : CreepQuery) (c : Z) :
  query_gate config_ q && query_clear config_ q = true ->
  CheckCreepDone_query config_ q c = debounce true c.
Proof.
  intros H. apply andb_prop in H. destruct H as [Hgate Hclear].
  unfold CheckCreepDone_query. rewrite CheckCreepDone_unfold.
  unfold query_gate in Hgate. rewrite Hgate.
  rewrite CheckCreepDone_loop_forallb.
  unfold query_clear in Hclear. rewrite Hclear. reflexivity.
Qed.

(** C1: starting from a counter of 0, five consecutive calls of
    [CheckCreepDone] whose gate is satisfied and in which no obstacle
    blocks return false four times and true on the fifth call; the counter
    after the first four calls is 1, 2, 3 and 4, and it is 0 again after
    the call that returns true. *)
Theorem CheckCreepDone_fires_on_fifth_clear_call (queries : list CreepQuery) :
  List.length queries = 5%nat ->
  forallb (fun q => query_gate config_ q && query_clear config_ q) queries
  = true ->
  CheckCreepDone_run config_ queries 0
  = [(false, 1%Z); (false, 2%Z); (false, 3%Z); (false, 4%Z); (true, 0%Z)].
Proof.
  intros Hlen Hall.
  destruct queries as [ | q1 [ | q2 [ | q3 [ | q4 [ | q5 [ | q6 rest]]]]]];
    try discriminate Hlen.
  cbn [forallb] in Hall.
  apply andb_prop in Hall. destruct Hall as [H1 Hall].
  apply andb_prop in Hall. destruct Hall as [H2 Hall].
  apply andb_prop in Hall. destruct Hall as [H3 Hall].
  apply andb_prop in Hall. destruct Hall as [H4 Hall].
  apply andb_prop in Hall. destruct Hall as [H5 _].
  cbn [CheckCreepDone_run].
  rewrite (CheckCreepDone_query_clear q1 0 H1).
  change (debounce true 0) with (false, 1%Z). cbn [snd].
  rewrite (CheckCreepDone_query_clear q2 1 H2).
  change (debounce true 1) with (false, 2%Z). cbn [snd].
  rewrite (CheckCreepDone_query_clear q3 2 H3).
  change (debounce true 2) with (false, 3%Z). cbn [snd].
  rewrite (CheckCreepDone_query_clear q4 3 H4).
  change (debounce true 3) with (false, 4%Z). cbn [snd].
  rewrite (CheckCreepDone_query_clear q5 4 H5).
  change (debounce true 4) with (true, 0%Z).
  reflexivity.
Qed.

(** C3: [CheckCreepDone] evaluates the obstacles and updates the debounce
    counter when distance_to_go < max_valid_stop_distance or
    wait_time_sec >= timeout_sec, and only then.  When the gate is satisfied
    the counter becomes 0 if some obstacle of the decision context blocks and
    (c + 1) mod 2^32 if none does, and the call returns true, with the
    counter back at 0, exactly when that new count is at least 5; when the
    gate is not satisfied the call returns false with the counter as it was.
    With wait_time_sec = 20, timeout_sec = 15, distance_to_go = 50 and
    max_valid_stop_distance = 2 the distance test fails, the timeout test
    holds, and the evaluation and the counter update take place. *)
Theorem CheckCreepDone_gate (frame : Frame) (rli : ReferenceLineInfo)
    (stop_sign_overlap_end_s wait_time_sec timeout_sec : float) (c : Z) :
  let distance := distance_to_go 0.5 rli stop_sign_overlap_end_s in
  let clear :=
    forallb (fun o => negb (blocking config_ o))
      (path_decision_obstacles_Items rli) in
  let count := (if clear then (c + 1) mod 2 ^ 32 else 0)%Z in
  let evaluated :=
    if (5 <=? count)%Z then (true, 0%Z) else (false, count) in
  let result :=
    CheckCreepDone config_ frame rli stop_sign_overlap_end_s wait_time_sec
      timeout_sec c in
  (gate_satisfied config_ distance wait_time_sec timeout_sec = true ->
   result = evaluated)
  /\ (gate_satisfied config_ distance wait_time_sec timeout_sec = false ->
      result = (false, c))
  /\ (wait_time_sec = 20.0 -> timeout_sec = 15.0 -> distance = 50.0 ->
      max_valid_stop_distance config_ = 2.0 ->
      (distance <? max_valid_stop_distance config_) = false
      /\ (timeout_sec <=? wait_time_sec) = true
      /\ result = evaluated).
Proof.
  intros distance clear count evaluated result.
  assert (Hresult :
    result
    = if gate_satisfied config_ distance wait_time_sec timeout_sec
      then evaluated else (false, c)).
  { unfold result. rewrite CheckCreepDone_unfold. fold distance.
    rewrite CheckCreepDone_loop_forallb, andb_true_r. fold clear.
    reflexivity. }
  split; [ | split].
  - intros H. rewrite Hresult, H. reflexivity.
  - intros H. rewrite Hresult, H. reflexivity.
  - intros Hw Ht Hd Hmax.
    assert (Hlt : (distance <? max_valid_stop_distance config_) = false)
      by (rewrite Hd, Hmax; reflexivity).
    assert (Hge : (timeout_sec <=? wait_time_sec) = true)
      by (rewrite Hw, Ht; reflexivity).
    split; [exact Hlt | split; [exact Hge | ]].
    rewrite Hresult. unfold gate_satisfied. rewrite Hlt, Hge. reflexivity.
Qed.

(** C4: in the obstacle scan of [CheckCreepDone] an obstacle blocks (the
    scan of that obstacle alone clears the flag) exactly when it is neither
    virtual nor static, its min_t is below min_boundary_t and it is not a
    benign exception (traveled_s < 1e-6 and min_t < ignore_max_st_min_t and
    min_s > ignore_min_st_min_s); the scan of a list clears the flag
    exactly when one of its obstacles blocks; and a benign exception never
    changes the outcome of a scan. *)
Theorem CheckCreepDone_loop_blocking :
  (forall o : Obstacle,
      let st := reference_line_st_boundary o in
      let traveled_s :=
        STPoint.s (STBoundary.bottom_left_point st)
        - STPoint.s (STBoundary.bottom_right_point st) in
      CheckCreepDone_loop config_ [o] true = false
      <-> (IsVirtual o = false /\ IsStatic o = false
           /\ (STBoundary.min_t st <? min_boundary_t config_) = true
           /\ ~ ((traveled_s <? 1e-6) = true
                 /\ (STBoundary.min_t st <? ignore_max_st_min_t config_)
                    = true
                 /\ (ignore_min_st_min_s config_ <? STBoundary.min_s st)
                    = true)))
  /\ (forall items : list Obstacle,
        CheckCreepDone_loop config_ items true = false
        <-> exists o, In o items
                      /\ CheckCreepDone_loop config_ [o] true = false)
  /\ (forall o : Obstacle,
        let st := reference_line_st_boundary o in
        let traveled_s :=
          STPoint.s (STBoundary.bottom_left_point st)
          - STPoint.s (STBoundary.bottom_right_point st) in
        (traveled_s <? 1e-6) = true ->
        (STBoundary.min_t st <? ignore_max_st_min_t config_) = true ->
        (ignore_min_st_min_s config_ <? STBoundary.min_s st) = true ->
        forall (before after : list Obstacle) (b : bool),
          CheckCreepDone_loop config_ (before ++ o :: after) b
          = CheckCreepDone_loop config_ (before ++ after) b).
Proof.
  assert (Hone : forall o,
    CheckCreepDone_loop config_ [o] true = negb (blocking config_ o)).
  { intros o. rewrite CheckCreepDone_loop_forallb. cbn [forallb].
    rewrite !andb_true_r. reflexivity. }
  split; [ | split].
  - intros o st traveled_s. rewrite Hone, negb_false_iff.
    unfold blocking, benign_exception. fold st. fold traveled_s.
    rewrite !andb_true_iff, !negb_true_iff, andb_false_iff, andb_false_iff.
    split.
    + intros [[[Hv Hs] Ht] Hb]. repeat split; try assumption.
      intros [H1 [H2 H3]]. destruct Hb as [[Hb | Hb] | Hb]; congruence.
    + intros [Hv [Hs [Ht Hb]]]. repeat split; try assumption.
      destruct (traveled_s <? 1e-6); [ | left; left; reflexivity].
      destruct (STBoundary.min_t st <? ignore_max_st_min_t config_);
        [ | left; right; reflexivity].
      destruct (ignore_min_st_min_s config_ <? STBoundary.min_s st);
        [ | right; reflexivity].
      exfalso. apply Hb. repeat split.
  - intros items. rewrite CheckCreepDone_loop_forallb, andb_true_r.
    rewrite forallb_not_blocking_false.
    split; intros [o [Hin Hb]]; exists o; split; try assumption.
    + rewrite Hone, Hb. reflexivity.
    + rewrite Hone in Hb. apply negb_false_iff in Hb. exact Hb.
  - intros o st traveled_s H1 H2 H3 before after b.
    rewrite !CheckCreepDone_loop_forallb, !forallb_app. cbn [forallb].
    assert (Hb : blocking config_ o = false).
    { unfold blocking, benign_exception. fold st. fold traveled_s.
      rewrite H1, H2, H3. cbn [andb negb]. apply andb_false_r. }
    rewrite Hb. reflexivity.
Qed.

(** C5: when the gate of [CheckCreepDone] is not satisfied, that is when
    neither of its two tests holds, and in particular when
    distance_to_go >= max_valid_stop_distance and
    wait_time_sec < timeout_sec, the call returns false and the counter is
    the one it was called with. *)
Theorem CheckCreepDone_gate_not_satisfied (frame : Frame)
    (rli : ReferenceLineInfo)
    (stop_sign_overlap_end_s wait_time_sec timeout_sec : float) (c : Z) :
  let distance :=
    distance_to_go (FindCreepDistance frame rli) rli
      stop_sign_overlap_end_s in
  gate_satisfied config_ distance wait_time_sec timeout_sec = false
  \/ ((max_valid_stop_distance config_ <=? distance) = true
      /\ (wait_time_sec <? timeout_sec) = true) ->
  CheckCreepDone config_ frame rli stop_sign_overlap_end_s wait_time_sec
    timeout_sec c
  = (false, c).
Proof.
  intros distance H.
  assert (Hgate :
    gate_satisfied config_ distance wait_time_sec timeout_sec = false).
  { destruct H as [H | [Hd Hw]]; [exact H | ].
    unfold gate_satisfied.
    rewrite (float_ge_not_lt _ _ Hd), (float_lt_not_ge _ _ Hw).
    reflexivity. }
  rewrite CheckCreepDone_unfold.
  fold (FindCreepDistance frame rli). fold distance.
  rewrite Hgate. reflexivity.
Qed.

(** C6: whatever the counter was, a call of [CheckCreepDone] whose gate is
    satisfied and in which some obstacle blocks returns false and leaves
    the counter at 0. *)
Theorem CheckCreepDone_blocked_resets (frame : Frame)
    (rli : ReferenceLineInfo)
    (stop_sign_overlap_end_s wait_time_sec timeout_sec : float) (c : Z) :
  gate_satisfied config_
    (distance_to_go (FindCreepDistance frame rli) rli
       stop_sign_overlap_end_s)
    wait_time_sec timeout_sec = true ->
  (exists o, In o (path_decision_obstacles_Items rli)
             /\ blocking config_ o = true) ->
  CheckCreepDone config_ frame rli stop_sign_overlap_end_s wait_time_sec
    timeout_sec c
  = (false, 0%Z).
Proof.
  intros Hgate Hblocked.
  rewrite CheckCreepDone_unfold.
  fold (FindCreepDistance frame rli). rewrite Hgate.
  rewrite CheckCreepDone_loop_forallb, andb_true_r.
  apply forallb_not_blocking_false in Hblocked. rewrite Hblocked.
  reflexivity.
Qed.

End ClearanceFacts.

(** ** The stop wall *)

Section StopWallFacts.

Context {collaborators : Collaborators}.
Variable config_ : DeciderCreepConfig.

(** [BuildStopDecision] with the state written out: the three ways it can
    end. *)
Lemma BuildStopDecision_unfold (stop_line_s : float) (w : World) :
  BuildStopDecision config_ stop_line_s w
  = let id := (CREEP_VO_ID_PREFIX ++ "SS")%string in
    let creep_stop_s := stop_line_s + 0.5 in
    match CreateStopObstacle (frame w) (reference_line_info w) id
            creep_stop_s with
    | (frame1, rli1, None) =>
        (false,
         mkWorld frame1 rli1
           (calls w
            ++ [Call_CreateStopObstacle id creep_stop_s;
                Call_AERROR ("Failed to create obstacle [" ++ id ++ "]")]))
    | (frame1, rli1, Some obstacle) =>
        match AddObstacle rli1 obstacle with
        | (rli2, None) =>
            (false,
             mkWorld frame1 rli2
               (calls w
                ++ [Call_CreateStopObstacle id creep_stop_s;
                    Call_AddObstacle obstacle;
                    Call_AERROR ("Failed to create obstacle for: " ++ id)]))
        | (rli2, Some stop_wall) =>
            let decision :=
              creeper_stop config_ (reference_line rli2) creep_stop_s in
            (true,
             mkWorld frame1
               (path_decision_AddLongitudinalDecision rli2 "Creeper"
                  (Id stop_wall) decision)
               (calls w
                ++ [Call_CreateStopObstacle id creep_stop_s;
                    Call_AddObstacle obstacle;
                    Call_AddLongitudinalDecision "Creeper" (Id stop_wall)
                      decision]))
        end
    end.
Proof.
  unfold BuildStopDecision, bind, get_frame, get_reference_line_info,
    do_CreateStopObstacle, FindCreepDistance.
  cbv zeta.
  destruct (CreateStopObstacle (frame w) (reference_line_info w)
              (CREEP_VO_ID_PREFIX ++ "SS") (stop_line_s + 0.5))
    as [[frame1 rli1] [obstacle | ]].
  - unfold do_AddObstacle. cbn [frame reference_line_info calls].
    destruct (AddObstacle rli1 obstacle) as [rli2 [stop_wall | ]].
    + unfold do_AddLongitudinalDecision, ret.
      cbn [frame reference_line_info calls].
      rewrite <- !app_assoc. reflexivity.
    + unfold AERROR, record, ret. cbn [frame reference_line_info calls].
      rewrite <- !app_assoc. reflexivity.
  - unfold AERROR, record, ret. cbn [frame reference_line_info calls].
    rewrite <- !app_assoc. reflexivity.
Qed.

(** [Process] with the state written out. *)
Lemma Process_unfold (context : PlanningContext) (w : World) :
  Process config_ context w
  = (Status_OK,
     if 0.0 <? Process_stop_line_s context (reference_line_info w)
     then snd (BuildStopDecision config_
                 (Process_stop_line_s context (reference_line_info w)) w)
     else w).
Proof.
  unfold Process, bind, get_reference_line_info, ret.
  destruct (0.0 <? Process_stop_line_s context (reference_line_info w)).
  - destruct (BuildStopDecision config_
                (Process_stop_line_s context (reference_line_info w)) w).
    reflexivity.
  - reflexivity.
Qed.

Lemma decisions_attached_app (l1 l2 : list Call) :
  decisions_attached (l1 ++ l2)
  = (decisions_attached l1 ++ decisions_attached l2)%list.
Proof.
  induction l1 as [ | c l1 IH]; cbn [app decisions_attached].
  - reflexivity.
  - destruct c; cbn [app]; rewrite IH; reflexivity.
Qed.

(** C2: the stop line [Process] works with is the end_s of the stop-sign
    overlap when the stop-sign overlap id of the planning status is not
    empty and resolves on the reference line; 0 when that id is not empty
    and does not resolve, whatever the traffic-light overlaps; the end_s of
    the first traffic-light overlap when the id is empty and there is a
    traffic-light overlap; and 0 when the id is empty and there is none.
    [Process] builds the stop decision at that stop line when it is
    positive. *)
Theorem Process_stop_line_s_cases (context : PlanningContext)
    (rli : ReferenceLineInfo) :
  let id := current_stop_sign_overlap_id context in
  let lights := current_traffic_light_overlaps context in
  let stop_line_s := Process_stop_line_s context rli in
  (forall overlap,
      id <> ""%string ->
      RefreshOverlapOnReferenceLine rli id STOP_SIGN = Some overlap ->
      stop_line_s = PathOverlap.end_s overlap)
  /\ (id <> ""%string ->
      RefreshOverlapOnReferenceLine rli id STOP_SIGN = None ->
      stop_line_s = 0.0)
  /\ (forall first rest,
        id = ""%string -> lights = first :: rest ->
        stop_line_s = PathOverlap.end_s first)
  /\ (id = ""%string -> lights = [] -> stop_line_s = 0.0)
  /\ (forall w : World,
        reference_line_info w = rli ->
        Process config_ context w
        = (Status_OK,
           if 0.0 <? stop_line_s
           then snd (BuildStopDecision config_ stop_line_s w)
           else w)).
Proof.
  intros id lights stop_line_s.
  unfold stop_line_s, Process_stop_line_s. fold id. fold lights.
  repeat split.
  - intros overlap Hid Hres.
    destruct id; [congruence | ]. cbn [empty negb]. rewrite Hres.
    reflexivity.
  - intros Hid Hres.
    destruct id; [congruence | ]. cbn [empty negb]. rewrite Hres.
    reflexivity.
  - intros first rest Hid Hlights. rewrite Hid, Hlights. reflexivity.
  - intros Hid Hlights. rewrite Hid, Hlights. reflexivity.
  - intros w Hw. rewrite Process_unfold, Hw. reflexivity.
Qed.

(** C7: when [BuildStopDecision] succeeds for a stop line at 100.0 with a
    stop distance of 1.0, the stop obstacle was created at
    creep_stop_s = 100.5 and the decision attached to the stop wall under
    the tag Creeper is a stop with reason CREEPER, distance_s = -1.0, and
    the heading and the point (with z = 0) of the reference point at
    stop_s = 99.5. *)
Theorem BuildStopDecision_scenario (w : World) :
  stop_distance config_ = 1.0 ->
  fst (BuildStopDecision config_ 100.0 w) = true ->
  let id := (CREEP_VO_ID_PREFIX ++ "SS")%string in
  exists frame1 rli1 obstacle rli2 stop_wall,
    CreateStopObstacle (frame w) (reference_line_info w) id 100.5
    = (frame1, rli1, Some obstacle)
    /\ AddObstacle rli1 obstacle = (rli2, Some stop_wall)
    /\ let stop_point := GetReferencePoint (reference_line rli2) 99.5 in
       let decision :=
         stop (mkObjectStop STOP_REASON_CREEPER (-1.0)
                 (ReferencePoint.heading stop_point)
                 (PointENU.mk (ReferencePoint.x stop_point)
                    (ReferencePoint.y stop_point) 0.0)) in
       snd (BuildStopDecision config_ 100.0 w)
       = mkWorld frame1
           (path_decision_AddLongitudinalDecision rli2 "Creeper"
              (Id stop_wall) decision)
           (calls w
            ++ [Call_CreateStopObstacle id 100.5;
                Call_AddObstacle obstacle;
                Call_AddLongitudinalDecision "Creeper" (Id stop_wall)
                  decision]).
Proof.
  intros Hdistance Hok id.
  rewrite BuildStopDecision_unfold in Hok |- *. cbv zeta in Hok |- *.
  fold id in Hok |- *.
  change (100.0 + 0.5) with 100.5 in Hok |- *.
  destruct (CreateStopObstacle (frame w) (reference_line_info w) id 100.5)
    as [[frame1 rli1] [obstacle | ]] eqn:Hcreate; [ | discriminate Hok].
  destruct (AddObstacle rli1 obstacle) as [rli2 [stop_wall | ]] eqn:Hadd;
    [ | discriminate Hok].
  exists frame1, rli1, obstacle, rli2, stop_wall.
  split; [reflexivity | split; [exact Hadd | ]].
  cbn [snd]. unfold creeper_stop. rewrite Hdistance.
  reflexivity.
Qed.

(** C8: when the creation of the stop obstacle fails, or its registration
    in the reference-line info fails, [BuildStopDecision] returns false,
    its last act is an error log, and it has attached no longitudinal
    decision. *)
Theorem BuildStopDecision_failure (stop_line_s : float) (w : World) :
  let id := (CREEP_VO_ID_PREFIX ++ "SS")%string in
  let created :=
    CreateStopObstacle (frame w) (reference_line_info w) id
      (stop_line_s + FindCreepDistance (frame w) (reference_line_info w)) in
  snd created = None
  \/ (exists obstacle,
        snd created = Some obstacle
        /\ snd (AddObstacle (snd (fst created)) obstacle) = None) ->
  let r := BuildStopDecision config_ stop_line_s w in
  fst r = false
  /\ decisions_attached (calls (snd r)) = decisions_attached (calls w)
  /\ (exists made message,
        calls (snd r) = (calls w ++ made ++ [Call_AERROR message])%list
        /\ decisions_attached made = []).
Proof.
  intros id created H r. unfold r.
  rewrite BuildStopDecision_unfold. cbv zeta. fold id.
  unfold created, FindCreepDistance in H.
  destruct (CreateStopObstacle (frame w) (reference_line_info w) id
              (stop_line_s + 0.5))
    as [[frame1 rli1] [obstacle | ]]; cbn [fst snd] in H.
  - destruct H as [H | [obstacle' [Hsome Hadd]]]; [discriminate H | ].
    injection Hsome as <-.
    destruct (AddObstacle rli1 obstacle) as [rli2 [stop_wall | ]];
      cbn [snd] in Hadd; [discriminate Hadd | ].
    cbn [fst snd calls]. split; [reflexivity | split].
    + rewrite decisions_attached_app. cbn [decisions_attached].
      apply app_nil_r.
    + exists [Call_CreateStopObstacle id (stop_line_s + 0.5);
              Call_AddObstacle obstacle].
      eexists. split; reflexivity.
  - cbn [fst snd calls]. split; [reflexivity | split].
    + rewrite decisions_attached_app. cbn [decisions_attached].
      apply app_nil_r.
    + exists [Call_CreateStopObstacle id (stop_line_s + 0.5)].
      eexists. split; reflexivity.
Qed.

(** C9: [Process] returns [Status::OK] for every frame and reference-line
    info: the result of [BuildStopDecision] is dropped, and the world after
    [Process] is the one [BuildStopDecision] left when the stop line is
    positive, failed or not, and the given one otherwise. *)
Theorem Process_returns_OK (context : PlanningContext) (w : World) :
  let stop_line_s := Process_stop_line_s context (reference_line_info w) in
  fst (Process config_ context w) = Status_OK
  /\ snd (Process config_ context w)
     = if 0.0 <? stop_line_s
       then snd (BuildStopDecision config_ stop_line_s w)
       else w.
Proof.
  intros stop_line_s. rewrite Process_unfold. split; reflexivity.
Qed.

(** C10: [FindCreepDistance] is 0.5 for every frame and reference-line
    info.  Hence [BuildStopDecision] creates the stop obstacle at
    stop_line_s + 0.5, [Process] does so when its stop line is positive,
    and the distance [CheckCreepDone] tests is
    (stop_sign_overlap_end_s + 0.5) - ego_end_s. *)
Theorem FindCreepDistance_constant :
  (forall (frame : Frame) (rli : ReferenceLineInfo),
      FindCreepDistance frame rli = 0.5)
  /\ (forall (stop_line_s : float) (w : World),
        exists rest,
          calls (snd (BuildStopDecision config_ stop_line_s w))
          = (calls w
             ++ Call_CreateStopObstacle (CREEP_VO_ID_PREFIX ++ "SS")
                  (stop_line_s + 0.5) :: rest)%list)
  /\ (forall (context : PlanningContext) (w : World),
        let stop_line_s :=
          Process_stop_line_s context (reference_line_info w) in
        exists rest,
          calls (snd (Process config_ context w))
          = (calls w
             ++ if 0.0 <? stop_line_s
                then Call_CreateStopObstacle (CREEP_VO_ID_PREFIX ++ "SS")
                       (stop_line_s + 0.5) :: rest
                else [])%list)
  /\ (forall (frame : Frame) (rli : ReferenceLineInfo)
             (stop_sign_overlap_end_s wait_time_sec timeout_sec : float)
             (c : Z),
        CheckCreepDone config_ frame rli stop_sign_overlap_end_s
          wait_time_sec timeout_sec c
        = if gate_satisfied config_
               ((stop_sign_overlap_end_s + 0.5)
                - SLBoundary.end_s (AdcSlBoundary rli))
               wait_time_sec timeout_sec
          then debounce
                 (CheckCreepDone_loop config_
                    (path_decision_obstacles_Items rli) true) c
          else (false, c)).
Proof.
  assert (Hbuild : forall (stop_line_s : float) (w : World),
    exists rest,
      calls (snd (BuildStopDecision config_ stop_line_s w))
      = (calls w
         ++ Call_CreateStopObstacle (CREEP_VO_ID_PREFIX ++ "SS")
              (stop_line_s + 0.5) :: rest)%list).
  { intros stop_line_s w. rewrite BuildStopDecision_unfold. cbv zeta.
    destruct (CreateStopObstacle (frame w) (reference_line_info w)
                (CREEP_VO_ID_PREFIX ++ "SS") (stop_line_s + 0.5))
      as [[frame1 rli1] [obstacle | ]].
    - destruct (AddObstacle rli1 obstacle) as [rli2 [stop_wall | ]];
        cbn [snd calls]; eexists; reflexivity.
    - cbn [snd calls]. eexists. reflexivity. }
  split; [reflexivity | split; [exact Hbuild | split]].
  - intros context w stop_line_s. rewrite Process_unfold. cbn [snd].
    fold stop_line_s.
    destruct (0.0 <? stop_line_s).
    + apply Hbuild.
    + exists []. symmetry. apply app_nil_r.
  - intros. reflexivity.
Qed.

End StopWallFacts.

(** ** The theorems at work on the concrete world *)

Lemma CheckCreepDone_fires_on_fifth_clear_call_witness :
  CheckCreepDone_run Sample.config Sample.approach 0
  = [(false, 1%Z); (false, 2%Z); (false, 3%Z); (false, 4%Z); (true, 0%Z)].
Proof.
  apply (CheckCreepDone_fires_on_fifth_clear_call Sample.config
           Sample.approach); reflexivity.
Defined.

Lemma Process_stop_line_s_cases_witness :
  Process_stop_line_s (Sample.at_sign "sign_0")
    (Sample.info 50.5 [] [Sample.sign_0]) = 100.0
  /\ Process_stop_line_s (Sample.at_sign "sign_9")
       (Sample.info 50.5 [] [Sample.sign_0]) = 0.0
  /\ Process_stop_line_s Sample.at_lights
       (Sample.info 50.5 [] [Sample.sign_0]) = 140.0
  /\ Process_stop_line_s Sample.at_nothing
       (Sample.info 50.5 [] [Sample.sign_0]) = 0.0.
Proof.
  pose (rli := Sample.info 50.5 [] [Sample.sign_0]).
  split; [ | split; [ | split]].
  - destruct (Process_stop_line_s_cases Sample.config
                (Sample.at_sign "sign_0") rli) as [H _].
    apply (H Sample.sign_0); [discriminate | reflexivity].
  - destruct (Process_stop_line_s_cases Sample.config
                (Sample.at_sign "sign_9") rli) as [_ [H _]].
    apply H; [discriminate | reflexivity].
  - destruct (Process_stop_line_s_cases Sample.config Sample.at_lights rli)
      as [_ [_ [H _]]].
    apply (H Sample.light_0 [Sample.light_1]); reflexivity.
  - destruct (Process_stop_line_s_cases Sample.config Sample.at_nothing rli)
      as [_ [_ [_ [H _]]]].
    apply H; reflexivity.
Defined.

Lemma CheckCreepDone_gate_witness :
  let crossed := Sample.info 50.5 [Sample.far; Sample.crossing] [] in
  let free := Sample.info 50.5 [Sample.far; Sample.leading] [] in
  ((100.5 - 50.5 <? 2.0) = false
   /\ (15.0 <=? 20.0) = true
   /\ CheckCreepDone Sample.config Sample.fresh_frame crossed 100.0 20.0 15.0 3
      = (false, 0%Z))
  /\ CheckCreepDone Sample.config Sample.fresh_frame free 100.0 20.0 15.0 3
     = (false, 4%Z)
  /\ CheckCreepDone Sample.config Sample.fresh_frame free 100.0 20.0 15.0 4
     = (true, 0%Z)
  /\ CheckCreepDone Sample.config Sample.fresh_frame free 100.0 10.0 15.0 3
     = (false, 3%Z).
Proof.
  intros crossed free. split; [ | split; [ | split]].
  - destruct (CheckCreepDone_gate Sample.config Sample.fresh_frame crossed
                100.0 20.0 15.0 3)
      as [_ [_ H]].
    destruct (H eq_refl eq_refl eq_refl eq_refl) as [Hlt [Hge Hresult]].
    split; [exact Hlt | split; [exact Hge | ]].
    rewrite Hresult. reflexivity.
  - destruct (CheckCreepDone_gate Sample.config Sample.fresh_frame free
                100.0 20.0 15.0 3)
      as [H _].
    rewrite (H eq_refl). reflexivity.
  - destruct (CheckCreepDone_gate Sample.config Sample.fresh_frame free
                100.0 20.0 15.0 4)
      as [H _].
    rewrite (H eq_refl). reflexivity.
  - destruct (CheckCreepDone_gate Sample.config Sample.fresh_frame free
                100.0 10.0 15.0 3)
      as [_ [H _]].
    rewrite (H eq_refl). reflexivity.
Defined.

Lemma CheckCreepDone_loop_blocking_witness :
  CheckCreepDone_loop Sample.config
    [Sample.far; Sample.leading; Sample.crossing] true
  = CheckCreepDone_loop Sample.config [Sample.far; Sample.crossing] true.
Proof.
  destruct (CheckCreepDone_loop_blocking Sample.config) as [_ [_ H]].
  apply (H Sample.leading eq_refl eq_refl eq_refl [Sample.far]
           [Sample.crossing] true).
Defined.

Lemma CheckCreepDone_gate_not_satisfied_witness :
  CheckCreepDone Sample.config Sample.fresh_frame
    (Sample.info 50.5 [Sample.far; Sample.crossing] []) 100.0 10.0 15.0 4
  = (false, 4%Z).
Proof.
  apply (CheckCreepDone_gate_not_satisfied Sample.config Sample.fresh_frame
           (Sample.info 50.5 [Sample.far; Sample.crossing] [])
           100.0 10.0 15.0 4).
  right. split; reflexivity.
Defined.

Lemma CheckCreepDone_blocked_resets_witness :
  CheckCreepDone Sample.config Sample.fresh_frame
    (Sample.info 99.0 [Sample.far; Sample.crossing] []) 100.0 1.0 15.0 4
  = (false, 0%Z).
Proof.
  apply (CheckCreepDone_blocked_resets Sample.config Sample.fresh_frame
           (Sample.info 99.0 [Sample.far; Sample.crossing] [])
           100.0 1.0 15.0 4).
  - reflexivity.
  - exists Sample.crossing. split; [right; left; reflexivity | reflexivity].
Defined.

Lemma BuildStopDecision_scenario_witness :
  let w := Sample.start (Sample.info 50.5 [] [Sample.sign_0]) in
  let wall := Sample.stop_obstacle "CREEP_SS" in
  let decision :=
    stop (mkObjectStop STOP_REASON_CREEPER (-1.0) 0.0
            (PointENU.mk 99.5 0.0 0.0)) in
  BuildStopDecision Sample.config 100.0 w
  = (true,
     mkWorld [wall]
       (Sample.mkInfo 300.0 (SLBoundary.mk 50.5) [wall]
          [("Creeper"%string, "CREEP_SS"%string, decision)] [Sample.sign_0])
       [Call_CreateStopObstacle "CREEP_SS" 100.5; Call_AddObstacle wall;
        Call_AddLongitudinalDecision "Creeper" "CREEP_SS" decision]).
Proof.
  intros w wall decision.
  destruct (BuildStopDecision_scenario Sample.config w eq_refl eq_refl)
    as [frame1 [rli1 [obstacle [rli2 [stop_wall [Hcreate [Hadd Hworld]]]]]]].
  injection Hcreate as <- <- <-. injection Hadd as <- <-.
  rewrite (surjective_pairing (BuildStopDecision Sample.config 100.0 w)).
  rewrite Hworld. reflexivity.
Defined.

Lemma BuildStopDecision_failure_witness :
  let taken :=
    Sample.start
      (Sample.info 50.5 [Sample.stop_obstacle "CREEP_SS"] [Sample.sign_0]) in
  let free := Sample.start (Sample.info 50.5 [] [Sample.sign_0]) in
  (fst (BuildStopDecision Sample.config 100.0 taken) = false
   /\ decisions_attached
        (calls (snd (BuildStopDecision Sample.config 100.0 taken))) = [])
  /\ (fst (BuildStopDecision Sample.config 300.0 free) = false
      /\ decisions_attached
           (calls (snd (BuildStopDecision Sample.config 300.0 free))) = []).
Proof.
  intros taken free. split.
  - destruct (BuildStopDecision_failure Sample.config 100.0 taken)
      as [Hfalse [Hnone _]].
    + right. exists (Sample.stop_obstacle "CREEP_SS").
      split; reflexivity.
    + split; [exact Hfalse | exact Hnone].
  - destruct (BuildStopDecision_failure Sample.config 300.0 free)
      as [Hfalse [Hnone _]].
    + left. reflexivity.
    + split; [exact Hfalse | exact Hnone].
Defined.

(** A failed build is not visible in the status of [Process]: the stop-sign
    overlap resolves and the stop line is positive, the id of the stop wall
    is taken, and [Process] still returns OK. *)
Example Process_hides_build_failure :
  let taken :=
    Sample.start
      (Sample.info 50.5 [Sample.stop_obstacle "CREEP_SS"] [Sample.sign_0]) in
  fst (BuildStopDecision Sample.config 100.0 taken) = false
  /\ Process_stop_line_s (Sample.at_sign "sign_0") (reference_line_info taken)
     = 100.0
  /\ fst (Process Sample.config (Sample.at_sign "sign_0") taken) = Status_OK.
Proof. repeat split. Qed.

(** ** Runs of the clearance query *)

Section DebounceRuns.

Context {collaborators : Collaborators}.
Variable config_ : DeciderCreepConfig.

(** One call, by the gate and the scan of its query. *)
Lemma CheckCreepDone_query_step (q : CreepQuery) (c : Z) :
  CheckCreepDone_query config_ q c
  = if query_gate config_ q
    then debounce (query_clear config_ q) c
    else (false, c).
Proof.
  unfold CheckCreepDone_query. rewrite CheckCreepDone_unfold.
  rewrite CheckCreepDone_loop_forallb, andb_true_r. reflexivity.
Qed.

Lemma debounce_clear_in_range (c : Z) :
  (0 <= c <= 4)%Z ->
  debounce true c = (((c + 1) mod 5 =? 0)%Z, ((c + 1) mod 5)%Z).
Proof.
  intros Hc.
  assert (H : c = 0%Z \/ c = 1%Z \/ c = 2%Z \/ c = 3%Z \/ c = 4%Z) by lia.
  destruct H as [-> | [-> | [-> | [-> | ->]]]]; reflexivity.
Qed.

Lemma debounce_range (clear : bool) (c : Z) :
  (0 <= snd (debounce clear c) <= 4)%Z
  /\ (fst (debounce clear c) = true -> snd (debounce clear c) = 0%Z).
Proof.
  unfold debounce, uint32_succ, UINT32_MODULUS.
  destruct clear.
  - pose proof (Z.mod_pos_bound (c + 1) (2 ^ 32) ltac:(lia)) as Hm.
    destruct (Z.leb_spec 5 ((c + 1) mod 2 ^ 32)); cbn [fst snd]; split;
      try lia; try reflexivity; discriminate.
  - cbn [fst snd Z.leb Z.compare]. split; [lia | reflexivity].
Qed.

Lemma CheckCreepDone_run_app (qs1 qs2 : list CreepQuery) (c : Z) :
  CheckCreepDone_run config_ (qs1 ++ qs2) c
  = (CheckCreepDone_run config_ qs1 c
     ++ CheckCreepDone_run config_ qs2
          (counter_after (CheckCreepDone_run config_ qs1 c) c))%list.
Proof.
  revert c. induction qs1 as [ | q qs1 IH]; intros c.
  - reflexivity.
  - cbn [app CheckCreepDone_run]. rewrite IH. reflexivity.
Qed.

Lemma fired_cons (r : bool * Z) (rs : list (bool * Z)) :
  fired (r :: rs) = ((if fst r then 1 else 0) + fired rs)%Z.
Proof.
  unfold fired. cbn [filter]. destruct (fst r); cbn [List.length]; lia.
Qed.

Lemma clear_samples_cons (q : CreepQuery) (qs : list CreepQuery) :
  clear_samples config_ (q :: qs)
  = ((if query_gate config_ q && query_clear config_ q then 1 else 0)
     + clear_samples config_ qs)%Z.
Proof.
  unfold clear_samples. cbn [filter].
  destruct (query_gate config_ q && query_clear config_ q);
    cbn [List.length]; lia.
Qed.

(** X1: a call whose gate is not satisfied is transparent in a run of calls.
    It returns false, the calls after it start from the counter the calls
    before it left, and the other calls return what they return when that
    call is not made. *)
Theorem CheckCreepDone_run_skips_unmet_gate
    (before after : list CreepQuery) (q : CreepQuery) (c : Z) :
  query_gate config_ q = false ->
  let left := counter_after (CheckCreepDone_run config_ before c) c in
  CheckCreepDone_run config_ (before ++ q :: after) c
  = (CheckCreepDone_run config_ before c
     ++ (false, left) :: CheckCreepDone_run config_ after left)%list
  /\ CheckCreepDone_run config_ (before ++ after) c
     = (CheckCreepDone_run config_ before c
        ++ CheckCreepDone_run config_ after left)%list.
Proof.
  intros Hgate left. split.
  - rewrite CheckCreepDone_run_app. fold left. cbn [CheckCreepDone_run].
    rewrite CheckCreepDone_query_step, Hgate. reflexivity.
  - apply CheckCreepDone_run_app.
Qed.

(** X2: from a counter c in [0, 4], in a run of calls that all pass the gate
    with no obstacle blocking, the k-th call leaves the counter at
    (c + k) mod 5 and returns true exactly when that is 0: the decider fires
    on every fifth clear call and on no other. *)
Theorem CheckCreepDone_run_clear_periodic (queries : list CreepQuery) (c : Z) :
  (0 <= c <= 4)%Z ->
  forallb (fun q => query_gate config_ q && query_clear config_ q) queries
  = true ->
  CheckCreepDone_run config_ queries c
  = map (fun k : nat =>
           (((c + Z.of_nat k) mod 5 =? 0)%Z, ((c + Z.of_nat k) mod 5)%Z))
      (seq 1 (List.length queries)).
Proof.
  revert c. induction queries as [ | q qs IH]; intros c Hc Hall.
  - reflexivity.
  - cbn [forallb] in Hall. apply andb_prop in Hall.
    destruct Hall as [Hq Hqs]. apply andb_prop in Hq.
    destruct Hq as [Hgate Hclear].
    cbn [CheckCreepDone_run List.length seq map].
    rewrite CheckCreepDone_query_step, Hgate, Hclear.
    rewrite (debounce_clear_in_range c Hc). cbn [snd].
    change (Z.of_nat 1) with 1%Z. f_equal.
    rewrite (IH ((c + 1) mod 5)%Z); [ | | exact Hqs].
    + rewrite <- (seq_shift (List.length qs) 1), map_map.
      apply map_ext. intros k.
      rewrite Nat2Z.inj_succ, Zplus_mod_idemp_l.
      replace (c + 1 + Z.of_nat k)%Z with (c + Z.succ (Z.of_nat k))%Z by lia.
      reflexivity.
    + pose proof (Z.mod_pos_bound (c + 1) 5 ltac:(lia)). lia.
Qed.

(** X3: whatever the queries are, a run that starts from a counter in [0, 4]
    keeps the counter in [0, 4] after every call, and every call that
    returns true leaves it at 0. *)
Theorem CheckCreepDone_run_counter_bounded (queries : list CreepQuery)
    (c : Z) :
  (0 <= c <= 4)%Z ->
  Forall (fun r => (0 <= snd r <= 4)%Z /\ (fst r = true -> snd r = 0%Z))
    (CheckCreepDone_run config_ queries c).
Proof.
  revert c. induction queries as [ | q qs IH]; intros c Hc.
  - constructor.
  - cbn [CheckCreepDone_run].
    assert (Hstep :
      (0 <= snd (CheckCreepDone_query config_ q c) <= 4)%Z
      /\ (fst (CheckCreepDone_query config_ q c) = true ->
          snd (CheckCreepDone_query config_ q c) = 0%Z)).
    { rewrite CheckCreepDone_query_step.
      destruct (query_gate config_ q).
      - apply debounce_range.
      - cbn [fst snd]. split; [exact Hc | discriminate]. }
    constructor; [exact Hstep | apply IH; apply Hstep].
Qed.

(** X4: the counter recovers from any value: after a call whose gate is
    satisfied the counter is in [0, 4], whatever integer it was before, the
    wrap-around of the 32-bit increment included. *)
Theorem CheckCreepDone_counter_recovers (frame : Frame)
    (rli : ReferenceLineInfo)
    (stop_sign_overlap_end_s wait_time_sec timeout_sec : float) (c : Z) :
  gate_satisfied config_
    (distance_to_go (FindCreepDistance frame rli) rli
       stop_sign_overlap_end_s)
    wait_time_sec timeout_sec = true ->
  (0 <= snd (CheckCreepDone config_ frame rli stop_sign_overlap_end_s
               wait_time_sec timeout_sec c) <= 4)%Z.
Proof.
  intros Hgate. rewrite CheckCreepDone_unfold.
  fold (FindCreepDistance frame rli). rewrite Hgate.
  apply debounce_range.
Qed.

(** X5: the decider fires at most once per five clear samples.  In a run
    from a counter c in [0, 4], five times the number of calls that return
    true, plus the counter left at the end, is at most c plus the number of
    calls that pass the gate with no obstacle blocking. *)
Theorem CheckCreepDone_run_fires_at_most_every_fifth
    (queries : list CreepQuery) (c : Z) :
  (0 <= c <= 4)%Z ->
  let results := CheckCreepDone_run config_ queries c in
  (0 <= counter_after results c)%Z
  /\ (5 * fired results + counter_after results c
      <= c + clear_samples config_ queries)%Z.
Proof.
  revert c. induction queries as [ | q qs IH]; intros c Hc results.
  - unfold results. cbn. lia.
  - unfold results. cbn [CheckCreepDone_run].
    rewrite fired_cons, clear_samples_cons.
    unfold counter_after. cbn [fold_left].
    fold (counter_after
            (CheckCreepDone_run config_ qs
               (snd (CheckCreepDone_query config_ q c)))
            (snd (CheckCreepDone_query config_ q c))).
    rewrite CheckCreepDone_query_step.
    assert (Hcs : (0 <= clear_samples config_ qs)%Z)
      by (unfold clear_samples; lia).
    destruct (query_gate config_ q); cbn [andb].
    + destruct (query_clear config_ q).
      * rewrite (debounce_clear_in_range c Hc). cbn [fst snd].
        pose proof (Z.mod_pos_bound (c + 1) 5 ltac:(lia)) as Hm.
        specialize (IH ((c + 1) mod 5)%Z ltac:(lia)). cbv zeta in IH.
        destruct (Z.eqb_spec ((c + 1) mod 5) 0) as [E | E].
        -- assert (c = 4%Z) by
             (assert (H : c = 0%Z \/ c = 1%Z \/ c = 2%Z \/ c = 3%Z
                          \/ c = 4%Z) by lia;
              destruct H as [-> | [-> | [-> | [-> | ->]]]];
              try reflexivity; discriminate E).
           subst c. rewrite E in IH |- *. lia.
        -- assert (Hsmall : ((c + 1) mod 5 = c + 1)%Z).
           { apply Z.mod_small.
             assert (c <> 4%Z) by (intros ->; apply E; reflexivity). lia. }
           rewrite Hsmall in IH |- *. lia.
      * change (debounce false c) with (false, 0%Z). cbn [fst snd].
        specialize (IH 0%Z ltac:(lia)). cbv zeta in IH. lia.
    + cbn [fst snd]. specialize (IH c Hc). cbv zeta in IH. lia.
Qed.

(** X6: a call of [CheckCreepDone] on a 32-bit counter returns true only
    when its gate is satisfied, no obstacle of the decision context blocks,
    and the counter was at least 4 and not the largest 32-bit value; it then
    leaves the counter at 0. *)
Theorem CheckCreepDone_done_only_if (frame : Frame) (rli : ReferenceLineInfo)
    (stop_sign_overlap_end_s wait_time_sec timeout_sec : float) (c : Z) :
  (0 <= c < UINT32_MODULUS)%Z ->
  let r :=
    CheckCreepDone config_ frame rli stop_sign_overlap_end_s wait_time_sec
      timeout_sec c in
  fst r = true ->
  gate_satisfied config_
    (distance_to_go (FindCreepDistance frame rli) rli
       stop_sign_overlap_end_s)
    wait_time_sec timeout_sec = true
  /\ forallb (fun o => negb (blocking config_ o))
       (path_decision_obstacles_Items rli) = true
  /\ (4 <= c < UINT32_MODULUS - 1)%Z
  /\ snd r = 0%Z.
Proof.
  intros Hc r. unfold r. rewrite CheckCreepDone_unfold.
  fold (FindCreepDistance frame rli).
  destruct (gate_satisfied config_ _ wait_time_sec timeout_sec);
    [ | discriminate].
  rewrite CheckCreepDone_loop_forallb, andb_true_r.
  destruct (forallb _ (path_decision_obstacles_Items rli));
    [ | discriminate].
  unfold debounce, uint32_succ. unfold UINT32_MODULUS in *.
  destruct (Z.leb_spec 5 ((c + 1) mod 2 ^ 32)) as [Hge | Hlt];
    cbn [fst snd]; [ | discriminate].
  intros _.
  assert (H4 : (4 <= c < 2 ^ 32 - 1)%Z).
  { destruct (Z.eq_dec c (2 ^ 32 - 1)) as [-> | Hne];
      [exfalso; revert Hge; apply Z.lt_nge; reflexivity | ].
    rewrite Z.mod_small in Hge by lia. lia. }
  repeat split; try reflexivity; lia.
Qed.

(** X7: the outcome of a call does not depend on the order in which the
    decision context lists its obstacles: two reference-line infos with the
    same ego boundary whose obstacle lists are permutations of each other
    give the same result and the same counter. *)
Theorem CheckCreepDone_order_independent (frame frame' : Frame)
    (rli rli' : ReferenceLineInfo)
    (stop_sign_overlap_end_s wait_time_sec timeout_sec : float) (c : Z) :
  AdcSlBoundary rli = AdcSlBoundary rli' ->
  Permutation (path_decision_obstacles_Items rli)
    (path_decision_obstacles_Items rli') ->
  CheckCreepDone config_ frame rli stop_sign_overlap_end_s wait_time_sec
    timeout_sec c
  = CheckCreepDone config_ frame' rli' stop_sign_overlap_end_s wait_time_sec
      timeout_sec c.
Proof.
  intros Hadc Hperm.
  rewrite !CheckCreepDone_unfold. unfold distance_to_go. rewrite Hadc.
  rewrite !CheckCreepDone_loop_forallb.
  assert (Hscan :
    forallb (fun o => negb (blocking config_ o))
      (path_decision_obstacles_Items rli)
    = forallb (fun o => negb (blocking config_ o))
        (path_decision_obstacles_Items rli')).
  { induction Hperm as [ | o l l' _ IH | o1 o2 l | l l' l'' _ IH1 _ IH2];
      cbn [forallb].
    - reflexivity.
    - rewrite IH. reflexivity.
    - rewrite !andb_assoc.
      rewrite (andb_comm (negb (blocking config_ o2))). reflexivity.
    - congruence. }
  rewrite Hscan. reflexivity.
Qed.

End DebounceRuns.

(** ** More on the stop wall *)

Section StopWallOutcomes.

Context {collaborators : Collaborators}.
Variable config_ : DeciderCreepConfig.

(** The decisions [BuildStopDecision] attaches: none when it fails, one on
    the stop wall when it succeeds. *)
Lemma BuildStopDecision_decisions (stop_line_s : float) (w : World) :
  let r := BuildStopDecision config_ stop_line_s w in
  exists new,
    decisions_attached (calls (snd r))
    = (decisions_attached (calls w) ++ new)%list
    /\ ((fst r = false /\ new = [])
        \/ (fst r = true
            /\ exists (stop_wall : Obstacle) (point : ReferencePoint.t),
                new = [("Creeper"%string, Id stop_wall,
                        stop (mkObjectStop STOP_REASON_CREEPER
                                (- stop_distance config_)
                                (ReferencePoint.heading point)
                                (PointENU.mk (ReferencePoint.x point)
                                   (ReferencePoint.y point) 0.0)))])).
Proof.
  intros r. unfold r. rewrite BuildStopDecision_unfold. cbv zeta.
  destruct (CreateStopObstacle (frame w) (reference_line_info w)
              (CREEP_VO_ID_PREFIX ++ "SS") (stop_line_s + 0.5))
    as [[frame1 rli1] [obstacle | ]].
  - destruct (AddObstacle rli1 obstacle) as [rli2 [stop_wall | ]];
      cbn [fst snd calls]; rewrite decisions_attached_app;
      cbn [decisions_attached]; eexists; (split; [reflexivity | ]).
    + right. split; [reflexivity | ].
      exists stop_wall. eexists. unfold creeper_stop. reflexivity.
    + left. split; reflexivity.
  - cbn [fst snd calls]. rewrite decisions_attached_app.
    cbn [decisions_attached]. eexists. split; [reflexivity | ].
    left. split; reflexivity.
Qed.

(** X8: [BuildStopDecision] returns true exactly when the stop obstacle is
    created and its registration succeeds.  For every stop line and stop
    distance it then attaches one decision, under the tag Creeper and the id
    of the registered stop wall: a stop with reason CREEPER, distance_s =
    -stop_distance, and the heading and point (z = 0) of the reference line
    at (stop_line_s + 0.5) - stop_distance. *)
Theorem BuildStopDecision_succeeds_iff (stop_line_s : float) (w : World) :
  let id := (CREEP_VO_ID_PREFIX ++ "SS")%string in
  let created :=
    CreateStopObstacle (frame w) (reference_line_info w) id
      (stop_line_s + 0.5) in
  let r := BuildStopDecision config_ stop_line_s w in
  (fst r = true
   <-> exists obstacle stop_wall,
         snd created = Some obstacle
         /\ snd (AddObstacle (snd (fst created)) obstacle) = Some stop_wall)
  /\ (forall obstacle stop_wall,
        snd created = Some obstacle ->
        snd (AddObstacle (snd (fst created)) obstacle) = Some stop_wall ->
        let rli2 := fst (AddObstacle (snd (fst created)) obstacle) in
        let point :=
          GetReferencePoint (reference_line rli2)
            ((stop_line_s + 0.5) - stop_distance config_) in
        let decision :=
          stop (mkObjectStop STOP_REASON_CREEPER (- stop_distance config_)
                  (ReferencePoint.heading point)
                  (PointENU.mk (ReferencePoint.x point)
                     (ReferencePoint.y point) 0.0)) in
        decisions_attached (calls (snd r))
        = (decisions_attached (calls w)
           ++ [("Creeper"%string, Id stop_wall, decision)])%list
        /\ reference_line_info (snd r)
           = path_decision_AddLongitudinalDecision rli2 "Creeper"
               (Id stop_wall) decision).
Proof.
  intros id created r. unfold r, created.
  rewrite BuildStopDecision_unfold. cbv zeta. fold id.
  destruct (CreateStopObstacle (frame w) (reference_line_info w) id
              (stop_line_s + 0.5))
    as [[frame1 rli1] [obstacle | ]]; cbn [fst snd].
  - destruct (AddObstacle rli1 obstacle) as [rli2 [stop_wall | ]] eqn:Hadd;
      cbn [fst snd].
    + split.
      * split; [intros _ | reflexivity].
        exists obstacle, stop_wall. rewrite Hadd. split; reflexivity.
      * intros obstacle' stop_wall' Ho Hw. injection Ho as <-.
        rewrite Hadd in Hw |- *. cbn [fst snd] in Hw |- *.
        injection Hw as <-. cbn [calls reference_line_info].
        rewrite decisions_attached_app. cbn [decisions_attached].
        split; reflexivity.
    + split.
      * split; [discriminate | ].
        intros [obstacle' [stop_wall' [Ho Hw]]]. injection Ho as <-.
        rewrite Hadd in Hw. discriminate Hw.
      * intros obstacle' stop_wall' Ho Hw. injection Ho as <-.
        rewrite Hadd in Hw. discriminate Hw.
  - split.
    + split; [discriminate | ].
      intros [obstacle' [stop_wall' [Ho _]]]. discriminate Ho.
    + intros obstacle' stop_wall' Ho. discriminate Ho.
Qed.

(** X9: [BuildStopDecision] undoes nothing.  The frame it leaves is the one
    [CreateStopObstacle] left, in every outcome; when the creation fails the
    reference-line info is the one [CreateStopObstacle] left, and when the
    registration fails it is the one [AddObstacle] left, so a stop obstacle
    created in the frame stays there when it could not be registered. *)
Theorem BuildStopDecision_no_rollback (stop_line_s : float) (w : World) :
  let id := (CREEP_VO_ID_PREFIX ++ "SS")%string in
  let created :=
    CreateStopObstacle (frame w) (reference_line_info w) id
      (stop_line_s + 0.5) in
  let r := BuildStopDecision config_ stop_line_s w in
  frame (snd r) = fst (fst created)
  /\ (snd created = None ->
      reference_line_info (snd r) = snd (fst created))
  /\ (forall obstacle,
        snd created = Some obstacle ->
        snd (AddObstacle (snd (fst created)) obstacle) = None ->
        reference_line_info (snd r)
        = fst (AddObstacle (snd (fst created)) obstacle)).
Proof.
  intros id created r. unfold r, created.
  rewrite BuildStopDecision_unfold. cbv zeta. fold id.
  destruct (CreateStopObstacle (frame w) (reference_line_info w) id
              (stop_line_s + 0.5))
    as [[frame1 rli1] [obstacle | ]]; cbn [fst snd].
  - destruct (AddObstacle rli1 obstacle) as [rli2 [stop_wall | ]] eqn:Hadd;
      cbn [fst snd frame reference_line_info].
    + split; [reflexivity | split; [discriminate | ]].
      intros obstacle' Ho Hw. injection Ho as <-.
      rewrite Hadd in Hw. discriminate Hw.
    + split; [reflexivity | split; [discriminate | ]].
      intros obstacle' Ho _. injection Ho as <-.
      rewrite Hadd. reflexivity.
  - cbn [frame reference_line_info].
    split; [reflexivity | split; [reflexivity | ]].
    intros obstacle' Ho. discriminate Ho.
Qed.

(** X10: [Process] does nothing but return OK when there is no positive stop
    line: when the stop-sign overlap id is set and does not resolve (the
    traffic lights are not looked at), when there is neither a stop sign nor
    a traffic light, and when the stop line found is at or below 0.  The
    world is unchanged: no obstacle is created, nothing is logged. *)
Theorem Process_without_stop_line (context : PlanningContext) (w : World) :
  let id := current_stop_sign_overlap_id context in
  let rli := reference_line_info w in
  (id <> ""%string /\ RefreshOverlapOnReferenceLine rli id STOP_SIGN = None)
  \/ (id = ""%string /\ current_traffic_light_overlaps context = [])
  \/ (Process_stop_line_s context rli <=? 0.0) = true ->
  Process config_ context w = (Status_OK, w).
Proof.
  intros id rli H. rewrite Process_unfold. fold rli.
  assert (Hno : (0.0 <? Process_stop_line_s context rli) = false).
  { destruct H as [[Hid Hres] | [[Hid Hlights] | Hle]].
    - unfold Process_stop_line_s. fold id.
      destruct id; [congruence | ]. cbn [empty negb]. rewrite Hres.
      reflexivity.
    - unfold Process_stop_line_s. fold id. rewrite Hid, Hlights.
      reflexivity.
    - apply float_ge_not_lt. exact Hle. }
  rewrite Hno. reflexivity.
Qed.

(** X11: one call of [Process] attaches at most one longitudinal decision,
    and a decision it attaches is under the tag Creeper and is a stop with
    reason CREEPER, distance_s = -stop_distance and a stop point with
    z = 0. *)
Theorem Process_attaches_at_most_one_stop (context : PlanningContext)
    (w : World) :
  exists new,
    decisions_attached (calls (snd (Process config_ context w)))
    = (decisions_attached (calls w) ++ new)%list
    /\ (List.length new <= 1)%nat
    /\ Forall
         (fun attached : string * string * ObjectDecisionType =>
            fst (fst attached) = "Creeper"%string
            /\ exists heading x y,
                snd attached
                = stop (mkObjectStop STOP_REASON_CREEPER
                          (- stop_distance config_) heading
                          (PointENU.mk x y 0.0)))
         new.
Proof.
  rewrite Process_unfold. cbn [snd].
  destruct (0.0 <? Process_stop_line_s context (reference_line_info w)).
  - destruct (BuildStopDecision_decisions
                (Process_stop_line_s context (reference_line_info w)) w)
      as [new [Hnew [[_ ->] | [_ [stop_wall [point ->]]]]]]; cbv zeta in Hnew.
    + exists []. split; [exact Hnew | split; [apply le_0_n | constructor]].
    + eexists. split; [exact Hnew | split; [apply le_n | ]].
      constructor; [ | constructor]. cbn [fst snd].
      split; [reflexivity | ]. do 3 eexists. reflexivity.
  - exists []. split; [symmetry; apply app_nil_r | ].
    split; [apply le_0_n | constructor].
Qed.

End StopWallOutcomes.

(** ** Doubles that are not numbers *)

Lemma SFcompare_refl_not_nan (f : spec_float) :
  SFcompare f f <> Some Eq -> f = S754_nan.
Proof.
  destruct f as [s | s | | s m e]; cbn [SFcompare]; try reflexivity;
    intros H; exfalso; apply H.
  - reflexivity.
  - destruct s; reflexivity.
  - rewrite Z.compare_refl, Pos.compare_cont_refl. destruct s; reflexivity.
Qed.

Lemma is_nan_Prim2SF (x : float) : is_nan x = true <-> Prim2SF x = S754_nan.
Proof.
  unfold is_nan. rewrite eqb_spec. unfold SFeqb. split.
  - intros H. apply SFcompare_refl_not_nan. intros E. rewrite E in H.
    discriminate H.
  - intros ->. reflexivity.
Qed.

Lemma nan_add_l (x y : float) : is_nan x = true -> is_nan (x + y) = true.
Proof. rewrite !is_nan_Prim2SF, add_spec. intros ->. reflexivity. Qed.

Lemma nan_sub_l (x y : float) : is_nan x = true -> is_nan (x - y) = true.
Proof. rewrite !is_nan_Prim2SF, sub_spec. intros ->. reflexivity. Qed.

Lemma nan_sub_r (x y : float) : is_nan y = true -> is_nan (x - y) = true.
Proof.
  rewrite !is_nan_Prim2SF, sub_spec. intros ->.
  destruct (Prim2SF x); reflexivity.
Qed.

Lemma nan_ltb_l (x a : float) : is_nan x = true -> (x <? a) = false.
Proof. rewrite is_nan_Prim2SF, ltb_spec. intros ->. reflexivity. Qed.

Lemma nan_ltb_r (x a : float) : is_nan x = true -> (a <? x) = false.
Proof.
  rewrite is_nan_Prim2SF, ltb_spec. intros ->. unfold SFltb.
  destruct (Prim2SF a); reflexivity.
Qed.

Lemma nan_leb_l (x a : float) : is_nan x = true -> (x <=? a) = false.
Proof. rewrite is_nan_Prim2SF, leb_spec. intros ->. reflexivity. Qed.

Lemma nan_leb_r (x a : float) : is_nan x = true -> (a <=? x) = false.
Proof.
  rewrite is_nan_Prim2SF, leb_spec. intros ->. unfold SFleb.
  destruct (Prim2SF a); reflexivity.
Qed.

Section NotANumber.

Context {collaborators : Collaborators}.
Variable config_ : DeciderCreepConfig.

(** X12: an obstacle whose ST boundary has a NaN min_t never blocks: the
    scan treats it as far away, and its presence anywhere in the list does
    not change the outcome. *)
Theorem CheckCreepDone_loop_ignores_nan_min_t (o : Obstacle)
    (before after : list Obstacle) (b : bool) :
  is_nan (STBoundary.min_t (reference_line_st_boundary o)) = true ->
  CheckCreepDone_loop config_ (before ++ o :: after) b
  = CheckCreepDone_loop config_ (before ++ after) b.
Proof.
  intros Hnan.
  rewrite !CheckCreepDone_loop_forallb, !forallb_app. cbn [forallb].
  assert (Hb : blocking config_ o = false).
  { unfold blocking. rewrite (nan_ltb_l _ _ Hnan).
    rewrite andb_false_r. reflexivity. }
  rewrite Hb. reflexivity.
Qed.

(** X13: a NaN never passes a test of the gate.  When the stop-sign overlap
    end, the ego end_s or max_valid_stop_distance is NaN, the gate of
    [CheckCreepDone] is the timeout test alone; when wait_time_sec or
    timeout_sec is NaN, it is the distance test alone. *)
Theorem CheckCreepDone_gate_with_nan (frame : Frame) (rli : ReferenceLineInfo)
    (stop_sign_overlap_end_s wait_time_sec timeout_sec : float) (c : Z) :
  let ego_end_s := SLBoundary.end_s (AdcSlBoundary rli) in
  let evaluated :=
    debounce
      (CheckCreepDone_loop config_ (path_decision_obstacles_Items rli) true)
      c in
  let result :=
    CheckCreepDone config_ frame rli stop_sign_overlap_end_s wait_time_sec
      timeout_sec c in
  (is_nan stop_sign_overlap_end_s = true
   \/ is_nan ego_end_s = true
   \/ is_nan (max_valid_stop_distance config_) = true ->
   result = if timeout_sec <=? wait_time_sec then evaluated else (false, c))
  /\ (is_nan wait_time_sec = true \/ is_nan timeout_sec = true ->
      result
      = if (stop_sign_overlap_end_s + 0.5) - ego_end_s
           <? max_valid_stop_distance config_
        then evaluated else (false, c)).
Proof.
  intros ego_end_s evaluated result.
  unfold result. rewrite CheckCreepDone_unfold.
  unfold gate_satisfied, distance_to_go. fold ego_end_s. fold evaluated.
  split.
  - intros H.
    assert (Hlt :
      ((stop_sign_overlap_end_s + 0.5) - ego_end_s
       <? max_valid_stop_distance config_) = false).
    { destruct H as [H | [H | H]].
      - apply nan_ltb_l, nan_sub_l, nan_add_l, H.
      - apply nan_ltb_l, nan_sub_r, H.
      - apply nan_ltb_r, H. }
    rewrite Hlt. reflexivity.
  - intros H.
    assert (Hge : (timeout_sec <=? wait_time_sec) = false).
    { destruct H as [H | H]; [apply nan_leb_r, H | apply nan_leb_l, H]. }
    rewrite Hge, orb_false_r. reflexivity.
Qed.

(** X14: when the stop line [Process] finds is NaN (the end_s of the
    resolved stop-sign overlap or of the first traffic-light overlap is),
    [Process] builds nothing: it returns OK and the world is unchanged. *)
Theorem Process_with_nan_stop_line (context : PlanningContext) (w : World) :
  is_nan (Process_stop_line_s context (reference_line_info w)) = true ->
  Process config_ context w = (Status_OK, w).
Proof.
  intros Hnan. rewrite Process_unfold, (nan_ltb_r _ _ Hnan). reflexivity.
Qed.

End NotANumber.

(** ** The further theorems at work on the concrete world *)

Lemma CheckCreepDone_run_skips_unmet_gate_witness :
  CheckCreepDone_run Sample.config
    (repeat Sample.clear_query 3
     ++ Sample.early_query :: repeat Sample.clear_query 2) 0
  = [(false, 1%Z); (false, 2%Z); (false, 3%Z); (false, 3%Z); (false, 4%Z);
     (true, 0%Z)].
Proof.
  destruct (CheckCreepDone_run_skips_unmet_gate Sample.config
              (repeat Sample.clear_query 3) (repeat Sample.clear_query 2)
              Sample.early_query 0 eq_refl) as [H _].
  rewrite H. reflexivity.
Defined.

Lemma CheckCreepDone_run_clear_periodic_witness :
  CheckCreepDone_run Sample.config (repeat Sample.clear_query 7) 3
  = [(false, 4%Z); (true, 0%Z); (false, 1%Z); (false, 2%Z); (false, 3%Z);
     (false, 4%Z); (true, 0%Z)].
Proof.
  rewrite (CheckCreepDone_run_clear_periodic Sample.config
             (repeat Sample.clear_query 7) 3 ltac:(lia) eq_refl).
  reflexivity.
Defined.

Lemma CheckCreepDone_run_counter_bounded_witness :
  Forall (fun r => (0 <= snd r <= 4)%Z /\ (fst r = true -> snd r = 0%Z))
    (CheckCreepDone_run Sample.config
       [Sample.clear_query; Sample.blocked_query; Sample.early_query;
        Sample.clear_query] 2).
Proof.
  apply (CheckCreepDone_run_counter_bounded Sample.config). lia.
Defined.

Lemma CheckCreepDone_counter_recovers_witness :
  (0 <= snd (CheckCreepDone Sample.config Sample.fresh_frame
               (Sample.info 99.0 [Sample.far] []) 100.0 1.0 15.0
               4294967295) <= 4)%Z.
Proof.
  apply (CheckCreepDone_counter_recovers Sample.config). reflexivity.
Defined.

Lemma CheckCreepDone_run_fires_at_most_every_fifth_witness :
  let queries :=
    (repeat Sample.clear_query 4
     ++ Sample.blocked_query :: repeat Sample.clear_query 4)%list in
  let results := CheckCreepDone_run Sample.config queries 0 in
  (0 <= counter_after results 0)%Z
  /\ (5 * fired results + counter_after results 0
      <= 0 + clear_samples Sample.config queries)%Z.
Proof.
  intros queries results.
  apply (CheckCreepDone_run_fires_at_most_every_fifth Sample.config queries
           0).
  lia.
Defined.

Lemma CheckCreepDone_done_only_if_witness :
  gate_satisfied Sample.config
    (distance_to_go 0.5 (Sample.info 99.0 [Sample.far] []) 100.0) 1.0 15.0
  = true
  /\ forallb (fun o => negb (blocking Sample.config o)) [Sample.far] = true
  /\ (4 <= 4 < UINT32_MODULUS - 1)%Z
  /\ snd (CheckCreepDone Sample.config Sample.fresh_frame
            (Sample.info 99.0 [Sample.far] []) 100.0 1.0 15.0 4) = 0%Z.
Proof.
  apply (CheckCreepDone_done_only_if Sample.config Sample.fresh_frame
           (Sample.info 99.0 [Sample.far] []) 100.0 1.0 15.0 4).
  - unfold UINT32_MODULUS. lia.
  - reflexivity.
Defined.

Lemma CheckCreepDone_order_independent_witness :
  CheckCreepDone Sample.config Sample.fresh_frame
    (Sample.info 99.0 [Sample.far; Sample.crossing] []) 100.0 1.0 15.0 3
  = CheckCreepDone Sample.config Sample.fresh_frame
      (Sample.info 99.0 [Sample.crossing; Sample.far] []) 100.0 1.0 15.0 3.
Proof.
  apply (CheckCreepDone_order_independent Sample.config).
  - reflexivity.
  - apply perm_swap.
Defined.

Lemma BuildStopDecision_succeeds_iff_witness :
  fst (BuildStopDecision Sample.config 140.0
         (Sample.start (Sample.info 50.5 [] []))) = true.
Proof.
  destruct (BuildStopDecision_succeeds_iff Sample.config 140.0
              (Sample.start (Sample.info 50.5 [] []))) as [[_ H] _].
  apply H.
  exists (Sample.stop_obstacle "CREEP_SS"), (Sample.stop_obstacle "CREEP_SS").
  split; reflexivity.
Defined.

Lemma BuildStopDecision_no_rollback_witness :
  let registered := Sample.info 50.5 [Sample.stop_obstacle "CREEP_SS"] [] in
  let r := BuildStopDecision Sample.config 100.0 (Sample.start registered) in
  frame (snd r) = [Sample.stop_obstacle "CREEP_SS"]
  /\ reference_line_info (snd r) = registered.
Proof.
  intros registered r.
  destruct (BuildStopDecision_no_rollback Sample.config 100.0
              (Sample.start registered)) as [Hframe [_ Hinfo]].
  split.
  - unfold r. rewrite Hframe. reflexivity.
  - unfold r.
    rewrite (Hinfo (Sample.stop_obstacle "CREEP_SS") eq_refl eq_refl).
    reflexivity.
Defined.

Lemma Process_without_stop_line_witness :
  Process Sample.config (Sample.at_sign "sign_9")
    (Sample.start (Sample.info 50.5 [] [Sample.sign_0]))
  = (Status_OK, Sample.start (Sample.info 50.5 [] [Sample.sign_0]))
  /\ Process Sample.config Sample.at_nothing
       (Sample.start (Sample.info 50.5 [] [Sample.sign_0]))
     = (Status_OK, Sample.start (Sample.info 50.5 [] [Sample.sign_0]))
  /\ Process Sample.config (Sample.at_sign "sign_b")
       (Sample.start (Sample.info 50.5 [] [Sample.sign_behind]))
     = (Status_OK, Sample.start (Sample.info 50.5 [] [Sample.sign_behind])).
Proof.
  split; [ | split].
  - apply (Process_without_stop_line Sample.config).
    left. split; [discriminate | reflexivity].
  - apply (Process_without_stop_line Sample.config).
    right. left. split; reflexivity.
  - apply (Process_without_stop_line Sample.config).
    right. right. reflexivity.
Defined.

Lemma CheckCreepDone_loop_ignores_nan_min_t_witness :
  CheckCreepDone_loop Sample.config
    [Sample.far; Sample.vehicle "ghost" nan 5.0 3.0; Sample.crossing] true
  = CheckCreepDone_loop Sample.config [Sample.far; Sample.crossing] true.
Proof.
  apply (CheckCreepDone_loop_ignores_nan_min_t Sample.config
           (Sample.vehicle "ghost" nan 5.0 3.0) [Sample.far]
           [Sample.crossing] true).
  reflexivity.
Defined.

Lemma CheckCreepDone_gate_with_nan_witness :
  CheckCreepDone Sample.config Sample.fresh_frame
    (Sample.info 99.0 [Sample.far] []) nan 1.0 15.0 4
  = (false, 4%Z)
  /\ CheckCreepDone Sample.config Sample.fresh_frame
       (Sample.info 50.5 [Sample.far] []) 100.0 nan 15.0 4
     = (false, 4%Z).
Proof.
  split.
  - destruct (CheckCreepDone_gate_with_nan Sample.config Sample.fresh_frame
                (Sample.info 99.0 [Sample.far] []) nan 1.0 15.0 4)
      as [H _].
    rewrite H; [reflexivity | left; reflexivity].
  - destruct (CheckCreepDone_gate_with_nan Sample.config Sample.fresh_frame
                (Sample.info 50.5 [Sample.far] []) 100.0 nan 15.0 4)
      as [_ H].
    rewrite H; [reflexivity | left; reflexivity].
Defined.

Lemma Process_with_nan_stop_line_witness :
  let w :=
    Sample.start
      (Sample.info 50.5 [] [PathOverlap.mk "sign_n" 98.0 nan]) in
  Process Sample.config (Sample.at_sign "sign_n") w = (Status_OK, w).
Proof.
  intros w.
  apply (Process_with_nan_stop_line Sample.config (Sample.at_sign "sign_n") w).
  reflexivity.
Defined.
